(** * resnet/train.py: batched prediction and the training driver

    A shallow embedding of [src/resnet/train.py].  The script has two
    functions, [predict_in_batches] and [train].  Both are effectful: they
    switch the model between training and evaluation mode, toggle gradient
    tracking, update parameters, print to the console and write files.  The
    embedding threads one [World] value through a small state-and-exception
    monad; an exception leaves the world as it was when it was raised, as in
    Python.

    Array entries are IEEE binary32 numbers and Python floats are binary64
    numbers, both computed with the reference operations of [SpecFloat];
    arrays are one- or two-dimensional. *)

From Stdlib Require Import ZArith List Lia String Ascii Bool SpecFloat.
From stdpp Require Import gmap strings list fin_maps.

Local Open Scope Z_scope.
Local Open Scope list_scope.

(** ** Exceptions and results *)

Inductive exn : Type :=
| ValueError
| UnboundLocalError
| FileNotFoundError
| FileExistsError
| IsADirectoryError.

Inductive result (A : Type) : Type :=
| Ok (a : A)
| Raise (e : exn).

Arguments Ok {A} a.
Arguments Raise {A} e.

(** ** Python built-ins used by the script *)

(** [len(range(start, stop, step))] for a non-zero step. *)
Definition range_len (start stop step : Z) : Z :=
  if 0 <? step
  then Z.max 0 ((stop - start + step - 1) / step)
  else Z.max 0 ((start - stop - step - 1) / (- step)).

(** [range(start, stop, step)]; a zero step raises [ValueError]. *)
Definition py_range3 (start stop step : Z) : result (list Z) :=
  if step =? 0 then Raise ValueError
  else Ok (map (fun k : nat => start + Z.of_nat k * step)
               (seq 0 (Z.to_nat (range_len start stop step)))).

(** [range(n)]. *)
Definition py_range (n : Z) : list Z :=
  map Z.of_nat (seq 0 (Z.to_nat n)).

(** [l[lo:hi]] for [0 <= lo], the only slices the script takes. *)
Definition slice {A : Type} (l : list A) (lo hi : Z) : list A :=
  firstn (Z.to_nat (hi - lo)) (skipn (Z.to_nat lo) l).

(** The batches that the loop of [predict_in_batches] takes from its input:
    [images[i:i+batch_size]] for [i] in [range(0, len(images), batch_size)]
    (none when the range cannot be built). *)
Definition batches {A : Type} (images : list A) (batch_size : Z) : list (list A) :=
  match py_range3 0 (Z.of_nat (length images)) batch_size with
  | Ok idx => map (fun i : Z => slice images i (i + batch_size)) idx
  | Raise _ => []
  end.

(** [posixpath.join(a, p)]. *)
Definition last_char (s : string) : option ascii :=
  last (list_ascii_of_string s).

Definition os_path_join (a p : string) : string :=
  if String.prefix "/" p then p
  else match last_char a with
       | None => a +:+ p
       | Some c => if Ascii.eqb c "/" then a +:+ p else a +:+ "/" +:+ p
       end.

(** ** Numbers and arrays *)

(** Tensor and array entries are binary32 numbers ([float32], the dtype of
    the model's output and of what [train] computes with NumPy); Python floats
    are binary64 numbers ([float64]). *)
Abbreviation float32 := spec_float.
Abbreviation float64 := spec_float.

Definition f32_mul : float32 -> float32 -> float32 := SFmul 24 128.
Definition f32_add : float32 -> float32 -> float32 := SFadd 24 128.
Definition f32_sub : float32 -> float32 -> float32 := SFsub 24 128.

(** The binary32 number a Python float is converted to when it meets a
    float32 array: rounded to nearest. *)
Definition f32_of_float (x : float64) : float32 :=
  match x with
  | S754_finite s m e => binary_round 24 128 s m e
  | _ => x
  end.

Definition f32_of_Z (z : Z) : float32 := binary_normalize 24 128 z 0 false.

Definition float_of_Z (z : Z) : float64 := binary_normalize 53 1024 z 0 false.

(** A NumPy array or tensor of one dimension, shape [(n,)], or of two, shape
    [(n, ncols)], given by its rows (each of [ncols] entries). *)
Inductive ndarray : Type :=
| Arr1 (v : list float32)
| Arr2 (ncols : nat) (rows : list (list float32)).

(** [len(a)], the first dimension. *)
Definition arr_len (a : ndarray) : nat :=
  match a with
  | Arr1 v => length v
  | Arr2 _ rows => length rows
  end.

(** The rows and the row width of [np.atleast_2d(a)]: a one-dimensional array
    becomes a single row. *)
Definition arr_rows (a : ndarray) : list (list float32) :=
  match a with
  | Arr1 v => [v]
  | Arr2 _ rows => rows
  end.

Definition arr_ncols (a : ndarray) : nat :=
  match a with
  | Arr1 v => length v
  | Arr2 k _ => k
  end.

(** The number of outputs per sample, as scikit-learn counts them: one for a
    one-dimensional array, the number of columns otherwise. *)
Definition arr_outputs (a : ndarray) : nat :=
  match a with
  | Arr1 _ => 1%nat
  | Arr2 k _ => k
  end.

(** [a.flatten()], in row-major order. *)
Definition arr_flatten (a : ndarray) : list float32 :=
  match a with
  | Arr1 v => v
  | Arr2 _ rows => concat rows
  end.

(** An operation broadcast over the entries. *)
Definition arr_map (f : float32 -> float32) (a : ndarray) : ndarray :=
  match a with
  | Arr1 v => Arr1 (map f v)
  | Arr2 k rows => Arr2 k (map (map f) rows)
  end.

(** [np.vstack(arrays)]: every array is taken as two-dimensional (a
    one-dimensional one as a single row) and the rows are stacked; an empty
    list and rows of different widths raise [ValueError]. *)
Definition np_vstack (arrays : list ndarray) : result ndarray :=
  match arrays with
  | [] => Raise ValueError
  | a :: rest =>
      if forallb (fun b : ndarray => (arr_ncols b =? arr_ncols a)%nat) rest
      then Ok (Arr2 (arr_ncols a) (concat (map arr_rows arrays)))
      else Raise ValueError
  end.

(** ** Tables and files *)

(** A worksheet as written by [DataFrame.to_excel]: a header row and data
    rows. *)
Record Sheet : Type := mkSheet {
  sheet_header : list string;
  sheet_rows : list (list float32) }.

Record DataFrame : Type := mkDataFrame {
  df_columns : list string;
  df_rows : list (list float32) }.

(** [pd.DataFrame({c1: a1, c2: a2})]: columns in insertion order; arrays of
    different lengths raise [ValueError]. *)
Definition pd_DataFrame (c1 : string) (a1 : list float32) (c2 : string)
    (a2 : list float32) : result DataFrame :=
  if (length a1 =? length a2)%nat
  then Ok (mkDataFrame [c1; c2]
             (map (fun xy : float32 * float32 => [fst xy; snd xy]) (combine a1 a2)))
  else Raise ValueError.

(** [df.to_excel(writer, sheet_name=..., index=index)]: with [index=True] a
    leading index column (unnamed header, row number) is written. *)
Definition to_excel (df : DataFrame) (index : bool) : Sheet :=
  if index
  then mkSheet (EmptyString :: df_columns df)
               (map (fun ir : nat * list float32 => f32_of_Z (Z.of_nat (fst ir)) :: snd ir)
                    (combine (seq 0 (length (df_rows df))) (df_rows df)))
  else mkSheet (df_columns df) (df_rows df).

(** [v * std_val + mean_val] for an entry [v] of a float32 array and the
    Python floats [std_val] and [mean_val]: the floats are converted to
    binary32, the product is rounded, then the sum. *)
Definition denormalize_value (std_val mean_val : float64) (v : float32) : float32 :=
  f32_add (f32_mul v (f32_of_float std_val)) (f32_of_float mean_val).

(** [arr * std_val + mean_val] on a NumPy array: broadcast over the entries. *)
Definition denormalize (arr : ndarray) (std_val mean_val : float64) : ndarray :=
  arr_map (denormalize_value std_val mean_val) arr.



(** The evaluation schedule of the training loop, line 76. *)
Definition should_evaluate (epoch num_epochs : Z) : bool :=
  (epoch mod 5 =? 0) || (epoch =? num_epochs - 1).

Section Train.

(** The external collaborators: the image type, the model (its parameters
    and its forward pass, which depends on the training/evaluation mode), the
    optimizer and the metric functions. *)
Context {Img Params OptState Metric : Type}.

(** [model(batch)] for a model with parameters [p] in mode [training]: the
    output tensor, of one or two dimensions. *)
Variable forward : Params -> bool -> list Img -> ndarray.

(** [ResNet_Model()] and [optim.Adam(model.parameters(), lr)]. *)
Variable init_params : Params.
Variable init_opt_state : float64 -> OptState.

(** One optimisation step on a mini-batch: loss, backward pass and the
    optimizer update. *)
Variable adam_update :
  OptState -> Params -> list Img -> list float32 -> Params * OptState.

(** [np.sqrt(mean_squared_error(y, p))] and [r2_score(y, p)] on the values of
    two arrays of the same length with one output per sample. *)
Variable rmse_value : list float32 -> list float32 -> Metric.
Variable r2_value : list float32 -> list float32 -> Metric.

Inductive File : Type :=
| Workbook (sheets : list (string * Sheet))
| Checkpoint (model_state_dict : Params) (mean std : float64)
| OtherFile (content : string).

(** What the run does, in order: mode switches, forward passes (with the mode
    and the gradient flag in force at the call, and the batch size),
    optimizer calls, console lines and file operations. *)
Inductive Event : Type :=
| EvModelEval
| EvModelTrain
| EvForward (training grad : bool) (n : nat)
| EvZeroGrad
| EvBackward
| EvStep
| EvPrintDevice
| EvPrintMetrics (epoch : Z) (train_rmse test_rmse train_r2 test_r2 : Metric)
| EvExcel (path : string)
| EvMakedirs (path : string)
| EvSave (path : string)
| EvPrintSaved (path : string).

Record World : Type := mkWorld {
  params : Params;
  training : bool;
  opt_state : OptState;
  grad_enabled : bool;
  fs_dirs : gset string;
  fs_files : gmap string File;
  trace : list Event }.

Definition set_training (b : bool) (w : World) : World :=
  mkWorld (params w) b (opt_state w) (grad_enabled w) (fs_dirs w) (fs_files w) (trace w).

Definition set_grad (b : bool) (w : World) : World :=
  mkWorld (params w) (training w) (opt_state w) b (fs_dirs w) (fs_files w) (trace w).

Definition set_model (p : Params) (o : OptState) (w : World) : World :=
  mkWorld p (training w) o (grad_enabled w) (fs_dirs w) (fs_files w) (trace w).

Definition set_fs (d : gset string) (f : gmap string File) (w : World) : World :=
  mkWorld (params w) (training w) (opt_state w) (grad_enabled w) d f (trace w).

Definition log_events (evs : list Event) (w : World) : World :=
  mkWorld (params w) (training w) (opt_state w) (grad_enabled w)
          (fs_dirs w) (fs_files w) (trace w ++ evs).

(** ** The monad *)

Definition M (A : Type) : Type := World -> result A * World.

Definition ret {A : Type} (a : A) : M A := fun w => (Ok a, w).

Definition raise {A : Type} (e : exn) : M A := fun w => (Raise e, w).

Definition bind {A B : Type} (m : M A) (f : A -> M B) : M B :=
  fun w => match m w with
           | (Ok a, w1) => f a w1
           | (Raise e, w1) => (Raise e, w1)
           end.

Definition lift {A : Type} (r : result A) : M A := fun w => (r, w).

Definition log (ev : Event) : M unit := fun w => (Ok tt, log_events [ev] w).

Notation "x <- m ;; k" := (bind m (fun x => k))
  (at level 100, m at next level, right associativity).
Notation "m ;;; k" := (bind m (fun _ => k))
  (at level 100, right associativity).

(** ** Model and framework operations *)

Definition model_eval : M unit :=
  fun w => (Ok tt, log_events [EvModelEval] (set_training false w)).

Definition model_train : M unit :=
  fun w => (Ok tt, log_events [EvModelTrain] (set_training true w)).

Definition call_model (batch : list Img) : M ndarray :=
  fun w => (Ok (forward (params w) (training w) batch),
            log_events [EvForward (training w) (grad_enabled w) (length batch)] w).

(** [with torch.no_grad(): body]: gradient tracking is switched off on entry
    and the previous setting is restored on exit, also when the body raises. *)
Definition with_no_grad {A : Type} (body : M A) : M A :=
  fun w => let prev := grad_enabled w in
           let (r, w1) := body (set_grad false w) in
           (r, set_grad prev w1).

(** ** predict_in_batches, lines 17-38 *)

Fixpoint predict_loop (images : list Img) (batch_size : Z) (idx : list Z)
    (preds : list ndarray) : M (list ndarray) :=
  match idx with
  | [] => ret preds
  | i :: rest =>
      let batch := slice images i (i + batch_size) in
      pred <- call_model batch ;;
      predict_loop images batch_size rest (preds ++ [pred])
  end.

Definition predict_in_batches (images : list Img) (batch_size : Z) : M ndarray :=
  model_eval ;;;
  preds <- with_no_grad (
    idx <- lift (py_range3 0 (Z.of_nat (length images)) batch_size) ;;
    predict_loop images batch_size idx []) ;;
  lift (np_vstack preds).

(** ** train, lines 41-121 *)

Record Config : Type := mkConfig {
  lr : float64;
  num_epochs : Z;
  train_batch_size : Z;
  test_batch_size : Z;
  target_col : string;      (* the text that f"{target}" renders *)
  model_dir : string }.

(** What [get_dataloaders()] and [get_raw_split()] return.  Iterating the
    training loader in epoch [e] yields the mini-batches [train_loader e].
    The labels are one number per sample (a tensor of shape [(N,)] or
    [(N, 1)], which the code does not tell apart); [mean_val] and [std_val]
    are given as the Python floats that lines 89-90 make of them. *)
Record Dataset : Type := mkDataset {
  train_loader : Z -> list (list Img * list float32);
  train_images : list Img;
  train_labels : list float32;
  test_images : list Img;
  test_labels : list float32;
  mean_val : float64;
  std_val : float64 }.

(** The local variables [train_preds] and [test_preds] of [train]; [None]
    while unbound. *)
Record Locals : Type := mkLocals {
  train_preds : option ndarray;
  test_preds : option ndarray }.

Definition read_local (v : option ndarray) : M ndarray :=
  match v with
  | Some x => ret x
  | None => raise UnboundLocalError
  end.

(** A scikit-learn metric of the labels and a prediction array: arrays of
    different lengths, and predictions with another number of outputs per
    sample than the labels' one, raise [ValueError].  The entries are taken
    to be finite: the [ValueError] that scikit-learn raises on a NaN or an
    infinite entry is not part of the model. *)
Definition sk_metric (f : list float32 -> list float32 -> Metric)
    (y_true : list float32) (y_pred : ndarray) : M Metric :=
  if ((length y_true =? arr_len y_pred) && (arr_outputs y_pred =? 1))%nat
  then ret (f y_true (arr_flatten y_pred))
  else raise ValueError.

Definition optimizer_step (x : list Img) (y : list float32) : M unit :=
  fun w => let (p, o) := adam_update (opt_state w) (params w) x y in
           (Ok tt, log_events [EvStep] (set_model p o w)).

(** Lines 68-73, one mini-batch.  Gradient tracking is taken to be on, as it
    is unless the caller of [train] has switched it off: the [RuntimeError]
    of [loss.backward()] on a loss computed without tracking is not part of
    the model. *)
Definition train_batch (b : list Img * list float32) : M unit :=
  log EvZeroGrad ;;;
  _ <- call_model (fst b) ;;
  log EvBackward ;;;
  optimizer_step (fst b) (snd b).

Fixpoint for_each {A : Type} (f : A -> M unit) (l : list A) : M unit :=
  match l with
  | [] => ret tt
  | a :: rest => f a ;;; for_each f rest
  end.

(** Lines 77-86, the evaluation step. *)
Definition evaluate (cfg : Config) (data : Dataset) (epoch : Z) : M Locals :=
  trp <- predict_in_batches (train_images data) (train_batch_size cfg) ;;
  tep <- predict_in_batches (test_images data) (test_batch_size cfg) ;;
  train_rmse <- sk_metric rmse_value (train_labels data) trp ;;
  test_rmse <- sk_metric rmse_value (test_labels data) tep ;;
  train_r2 <- sk_metric r2_value (train_labels data) trp ;;
  test_r2 <- sk_metric r2_value (test_labels data) tep ;;
  log (EvPrintMetrics epoch train_rmse test_rmse train_r2 test_r2) ;;;
  ret (mkLocals (Some trp) (Some tep)).

(** Lines 66-86, one epoch. *)
Definition epoch_body (cfg : Config) (data : Dataset) (epoch : Z) (loc : Locals)
  : M Locals :=
  model_train ;;;
  for_each train_batch (train_loader data epoch) ;;;
  if should_evaluate epoch (num_epochs cfg)
  then evaluate cfg data epoch
  else ret loc.

Fixpoint epochs_loop (cfg : Config) (data : Dataset) (epochs : list Z)
    (loc : Locals) : M Locals :=
  match epochs with
  | [] => ret loc
  | e :: rest =>
      loc1 <- epoch_body cfg data e loc ;;
      epochs_loop cfg data rest loc1
  end.

(** [ResNet_Model()], a fresh module in training mode, and its optimizer. *)
Definition init_model (cfg : Config) : M unit :=
  fun w => (Ok tt, set_training true (set_model init_params (init_opt_state (lr cfg)) w)).

(** Writing a file replaces what was there; a directory at the path raises. *)
Definition write_file (path : string) (f : File) : M unit :=
  fun w => if decide (path ∈ fs_dirs w)
           then (Raise IsADirectoryError, w)
           else (Ok tt, set_fs (fs_dirs w) (<[path := f]> (fs_files w)) w).

(** [os.makedirs(path, exist_ok=True)]: nothing happens when the directory
    exists; an empty path or a file at the path raises.  The file system is
    a set of directory paths and a map from paths to files: of the
    directories the call creates, only [path] itself is recorded, not the
    missing parents. *)
Definition os_makedirs_exist_ok (path : string) : M unit :=
  fun w => if decide (path = EmptyString)
           then (Raise FileNotFoundError, w)
           else match fs_files w !! path with
                | Some _ => (Raise FileExistsError, w)
                | None => (Ok tt, log_events [EvMakedirs path]
                                   (set_fs ({[path]} ∪ fs_dirs w) (fs_files w) w))
                end.

Definition excel_output (cfg : Config) : string :=
  "predictions_vs_actual_col" +:+ target_col cfg +:+ ".xlsx".

Definition model_save_path (cfg : Config) : string :=
  os_path_join (model_dir cfg) ("model" +:+ target_col cfg +:+ ".pth").

(** [torch.save({'model_state_dict': ..., 'mean': ..., 'std': ...}, path)]. *)
Definition torch_save (path : string) (mean std : float64) : M unit :=
  fun w => bind (write_file path (Checkpoint (params w) mean std))
                (fun _ => log (EvSave path)) w.

(** The local variables are read in the order of lines 92-95, so an unbound
    [train_preds] raises first.  Both data frames are built inside the
    [with pd.ExcelWriter(...)] block and the workbook is written when the block
    is left. *)
Definition train (cfg : Config) (data : Dataset) : M unit :=
  log EvPrintDevice ;;;
  init_model cfg ;;;
  loc <- epochs_loop cfg data (py_range (num_epochs cfg)) (mkLocals None None) ;;
  let std := std_val data in
  let mean := mean_val data in
  trp <- read_local (train_preds loc) ;;
  let train_preds_actual := denormalize trp std mean in
  tep <- read_local (test_preds loc) ;;
  let test_preds_actual := denormalize tep std mean in
  let train_true_actual := denormalize (Arr1 (train_labels data)) std mean in
  let test_true_actual := denormalize (Arr1 (test_labels data)) std mean in
  df_train <- lift (pd_DataFrame "True" (arr_flatten train_true_actual)
                                 "Predicted" (arr_flatten train_preds_actual)) ;;
  df_test <- lift (pd_DataFrame "True" (arr_flatten test_true_actual)
                                "Predicted" (arr_flatten test_preds_actual)) ;;
  write_file (excel_output cfg)
             (Workbook [("Train"%string, to_excel df_train false);
                        ("Test"%string, to_excel df_test false)]) ;;;
  log (EvExcel (excel_output cfg)) ;;;
  os_makedirs_exist_ok (model_dir cfg) ;;;
  torch_save (model_save_path cfg) mean std ;;;
  log (EvPrintSaved (model_save_path cfg)).

(** ** Reading a run

    The definitions below describe runs; the theorems relate them to the
    code above. *)

(** The events of one call of [predict_in_batches]: the switch to evaluation
    mode, then one forward pass per batch, each in evaluation mode with
    gradient tracking off. *)
Definition predict_events (images : list Img) (batch_size : Z) : list Event :=
  EvModelEval ::
  map (fun c : list Img => EvForward false false (length c)) (batches images batch_size).

(** What [predict_in_batches] returns for a model with parameters [p]. *)
Definition batched_forward (p : Params) (images : list Img) (batch_size : Z)
  : result ndarray :=
  np_vstack (map (forward p false) (batches images batch_size)).

(** The training phase of an epoch over the mini-batches [bs]: its events
    ([g] is the gradient flag in force) and its effect on the model. *)
Definition training_events (g : bool) (bs : list (list Img * list float32)) : list Event :=
  EvModelTrain ::
  flat_map (fun b : list Img * list float32 =>
              [EvZeroGrad; EvForward true g (length (fst b)); EvBackward; EvStep]) bs.

Definition fit_batches (po : Params * OptState) (bs : list (list Img * list float32))
  : Params * OptState :=
  fold_left (fun (po : Params * OptState) (b : list Img * list float32) =>
               adam_update (snd po) (fst po) (fst b) (snd b)) bs po.

(** The events of an evaluation step that obtained the predictions [trp] and
    [tep]. *)
Definition eval_events (cfg : Config) (data : Dataset) (epoch : Z)
    (trp tep : ndarray) : list Event :=
  predict_events (train_images data) (train_batch_size cfg) ++
  predict_events (test_images data) (test_batch_size cfg) ++
  [EvPrintMetrics epoch
     (rmse_value (train_labels data) (arr_flatten trp))
     (rmse_value (test_labels data) (arr_flatten tep))
     (r2_value (train_labels data) (arr_flatten trp))
     (r2_value (test_labels data) (arr_flatten tep))].

(** An evaluation step on the model [p] that does not raise: both batched
    predictions come back, agree in length with the labels and hold one
    output per sample. *)
Definition evaluated (cfg : Config) (data : Dataset) (p : Params)
    (trp tep : ndarray) : Prop :=
  batched_forward p (train_images data) (train_batch_size cfg) = Ok trp /\
  batched_forward p (test_images data) (test_batch_size cfg) = Ok tep /\
  length (train_labels data) = arr_len trp /\
  length (test_labels data) = arr_len tep /\
  arr_outputs trp = 1%nat /\
  arr_outputs tep = 1%nat.

(** The runs of the epoch loop that do not raise, as a big-step relation:
    from the model state and locals on the left, over the listed epochs, the
    loop emits the events and ends in the state on the right.  An epoch is
    its training phase, followed by the evaluation step when the schedule
    says so. *)
Inductive epochs_run (cfg : Config) (data : Dataset) (g : bool)
  : Params * OptState -> Locals -> list Z -> list Event ->
    Params * OptState -> Locals -> Prop :=
| run_done po loc :
    epochs_run cfg data g po loc [] [] po loc
| run_train_only po loc e rest evs po' loc' :
    should_evaluate e (num_epochs cfg) = false ->
    epochs_run cfg data g (fit_batches po (train_loader data e)) loc rest evs po' loc' ->
    epochs_run cfg data g po loc (e :: rest)
               (training_events g (train_loader data e) ++ evs) po' loc'
| run_train_eval po loc e rest evs po' loc' trp tep :
    should_evaluate e (num_epochs cfg) = true ->
    evaluated cfg data (fst (fit_batches po (train_loader data e))) trp tep ->
    epochs_run cfg data g (fit_batches po (train_loader data e))
               (mkLocals (Some trp) (Some tep)) rest evs po' loc' ->
    epochs_run cfg data g po loc (e :: rest)
               (training_events g (train_loader data e) ++
                eval_events cfg data e trp tep ++ evs) po' loc'.

(** The epochs whose metrics line was printed, in order. *)
Definition logged_epochs (evs : list Event) : list Z :=
  flat_map (fun ev : Event =>
              match ev with EvPrintMetrics e _ _ _ _ => [e] | _ => [] end) evs.

(** The metrics lines of a run, each with the number of [model.train()]
    calls and of optimizer steps that precede it; [trains] and [steps] count
    those before [evs]. *)
Fixpoint metrics_log (trains steps : nat) (evs : list Event) : list (Z * nat * nat) :=
  match evs with
  | [] => []
  | EvModelTrain :: rest => metrics_log (S trains) steps rest
  | EvStep :: rest => metrics_log trains (S steps) rest
  | EvPrintMetrics e _ _ _ _ :: rest => (e, trains, steps) :: metrics_log trains steps rest
  | _ :: rest => metrics_log trains steps rest
  end.

(** The number of mini-batches, hence of optimizer steps, in the epochs
    [0 .. e]. *)
Definition steps_through (data : Dataset) (e : Z) : nat :=
  list_sum (map (fun k : Z => length (train_loader data k)) (py_range (e + 1))).

Definition is_optimizer_event (ev : Event) : bool :=
  match ev with
  | EvZeroGrad | EvBackward | EvStep => true
  | _ => false
  end.

Definition is_save (ev : Event) : bool :=
  match ev with EvSave _ => true | _ => false end.

Definition is_excel (ev : Event) : bool :=
  match ev with EvExcel _ => true | _ => false end.

(** The events that close a completed run. *)
Definition closing_events (cfg : Config) : list Event :=
  [EvExcel (excel_output cfg); EvMakedirs (model_dir cfg);
   EvSave (model_save_path cfg); EvPrintSaved (model_save_path cfg)].

(** The report of a run with final predictions [trp] and [tep]. *)
Definition report_sheet (labels : list float32) (preds : ndarray)
    (std mean : float64) : Sheet :=
  mkSheet ["True"%string; "Predicted"%string]
          (map (fun xy : float32 * float32 => [fst xy; snd xy])
               (combine (arr_flatten (denormalize (Arr1 labels) std mean))
                        (arr_flatten (denormalize preds std mean)))).

Definition report (data : Dataset) (trp tep : ndarray) : File :=
  Workbook [("Train"%string,
             report_sheet (train_labels data) trp (std_val data) (mean_val data));
            ("Test"%string,
             report_sheet (test_labels data) tep (std_val data) (mean_val data))].

(** ** More ways to read a run *)

(** Lines 88-121 of [train] on their own: what follows the epoch loop, given
    the local variables the loop leaves. *)
Definition report_and_save (cfg : Config) (data : Dataset) (loc : Locals) : M unit :=
  let std := std_val data in
  let mean := mean_val data in
  trp <- read_local (train_preds loc) ;;
  let train_preds_actual := denormalize trp std mean in
  tep <- read_local (test_preds loc) ;;
  let test_preds_actual := denormalize tep std mean in
  let train_true_actual := denormalize (Arr1 (train_labels data)) std mean in
  let test_true_actual := denormalize (Arr1 (test_labels data)) std mean in
  df_train <- lift (pd_DataFrame "True" (arr_flatten train_true_actual)
                                 "Predicted" (arr_flatten train_preds_actual)) ;;
  df_test <- lift (pd_DataFrame "True" (arr_flatten test_true_actual)
                                "Predicted" (arr_flatten test_preds_actual)) ;;
  write_file (excel_output cfg)
             (Workbook [("Train"%string, to_excel df_train false);
                        ("Test"%string, to_excel df_test false)]) ;;;
  log (EvExcel (excel_output cfg)) ;;;
  os_makedirs_exist_ok (model_dir cfg) ;;;
  torch_save (model_save_path cfg) mean std ;;;
  log (EvPrintSaved (model_save_path cfg)).

(** The world in which the epoch loop starts: the device line printed and a
    fresh model in training mode. *)
Definition loop_start (cfg : Config) (w : World) : World :=
  set_training true
    (set_model init_params (init_opt_state (lr cfg)) (log_events [EvPrintDevice] w)).

(** The model and optimizer state after the training phases of the listed
    epochs, with no evaluation in between. *)
Definition fit_epochs (data : Dataset) (po : Params * OptState) (es : list Z)
  : Params * OptState :=
  fold_left (fun (po : Params * OptState) (e : Z) => fit_batches po (train_loader data e))
            es po.

(** The events that belong to an evaluation step. *)
Definition is_eval_event (ev : Event) : bool :=
  match ev with
  | EvModelEval | EvForward false _ _ | EvPrintMetrics _ _ _ _ _ => true
  | _ => false
  end.

End Train.

(** ** A small concrete instance

    Images are numbers, the model has one weight [p] and predicts [p * x] for
    the image [x]; an optimizer step adds one to the weight.  A second model,
    [count_forward], returns for every image the size of the batch it was
    given, as a model with batch-level statistics does. *)

Module Demo.

Definition forward (p : float32) (training : bool) (batch : list Z) : ndarray :=
  Arr2 1 (map (fun x : Z => [f32_mul p (f32_of_Z x)]) batch).

Definition count_forward (p : float32) (training : bool) (batch : list Z) : ndarray :=
  Arr2 1 (map (fun _ : Z => [f32_of_Z (Z.of_nat (length batch))]) batch).

(** The one-weight model with a flat output (a network ending in a
    [squeeze]). *)
Definition flat_forward (p : float32) (training : bool) (batch : list Z) : ndarray :=
  Arr1 (map (fun x : Z => f32_mul p (f32_of_Z x)) batch).

Definition init_params : float32 := f32_of_Z 1.

Definition init_opt_state (lr : float64) : nat := 0%nat.

Definition adam_update (o : nat) (p : float32) (x : list Z) (y : list float32)
  : float32 * nat :=
  (f32_add p (f32_of_Z 1), S o).

Definition rmse_value (y p : list float32) : float32 :=
  fold_right f32_add (f32_of_Z 0)
             (map (fun yp : float32 * float32 =>
                     f32_mul (f32_sub (fst yp) (snd yp)) (f32_sub (fst yp) (snd yp)))
                  (combine y p)).

Definition r2_value (y p : list float32) : float32 := f32_of_Z 0.

Definition cfg : Config :=
  mkConfig (float_of_Z 1) 7 2 2 "3" "models".

Definition cfg_no_epochs : Config :=
  mkConfig (float_of_Z 1) 0 2 2 "3" "models".

Definition data : @Dataset Z :=
  mkDataset (fun _ : Z => [([1; 2], [f32_of_Z 1; f32_of_Z 2]); ([3], [f32_of_Z 3])])
            [1; 2; 3] [f32_of_Z 1; f32_of_Z 2; f32_of_Z 3]
            [4] [f32_of_Z 4]
            (float_of_Z 10) (float_of_Z 2).

(** A world in which the model directory and a stale checkpoint already
    exist, the model is in training mode and gradients are tracked. *)
Definition world : @World float32 nat float32 :=
  mkWorld (f32_of_Z 3) true 0%nat true
          {["models"%string]}
          {["models/model3.pth"%string := OtherFile "stale"]}
          [].

Abbreviation run_train c :=
  (train forward init_params init_opt_state adam_update rmse_value r2_value c data world).

Abbreviation run_train_on c d w :=
  (train forward init_params init_opt_state adam_update rmse_value r2_value c d w).



End Demo.

(** * Properties *)

(** ** Lists, ranges and slices *)

Lemma chunks_concat {A : Type} (b : nat) : forall (m : nat) (l : list A),
  (length l <= m * b)%nat ->
  concat (map (fun k : nat => firstn b (skipn (k * b) l)) (seq 0 m)) = l.
Proof.
  induction m as [|m IH]; intros l Hlen.
  - destruct l; simpl in *; [reflexivity | lia].
  - cbn [seq map concat]. rewrite <- seq_shift, map_map.
    replace (skipn (0 * b) l) with l by reflexivity.
    transitivity (firstn b l ++ skipn b l); [|apply firstn_skipn].
    f_equal.
    rewrite <- (IH (skipn b l)) by (rewrite length_skipn; lia).
    f_equal. apply map_ext. intros k.
    rewrite skipn_skipn. do 2 f_equal. lia.
Qed.

Lemma range_len_pos (n : nat) (B : Z) : 1 <= B ->
  range_len 0 (Z.of_nat n) B = (Z.of_nat n + B - 1) / B.
Proof.
  intros HB. unfold range_len.
  destruct (0 <? B) eqn:E; [|apply Z.ltb_ge in E; lia].
  rewrite Z.sub_0_r. apply Z.max_r. apply Z.div_pos; lia.
Qed.

Lemma batches_nat {A : Type} (images : list A) (B : Z) : 1 <= B ->
  batches images B =
  map (fun k : nat => firstn (Z.to_nat B) (skipn (k * Z.to_nat B) images))
      (seq 0 (Z.to_nat ((Z.of_nat (length images) + B - 1) / B))).
Proof.
  intros HB. unfold batches, py_range3.
  destruct (B =? 0) eqn:E; [apply Z.eqb_eq in E; lia|].
  rewrite range_len_pos by assumption. rewrite map_map.
  apply map_ext. intros k. unfold slice. f_equal; [f_equal; lia|].
  f_equal. lia.
Qed.

Lemma batches_count_bound (n : nat) (B : Z) : 1 <= B ->
  (n <= Z.to_nat ((Z.of_nat n + B - 1) / B) * Z.to_nat B)%nat.
Proof.
  intros HB.
  assert (H0 : 0 <= (Z.of_nat n + B - 1) / B) by (apply Z.div_pos; lia).
  pose proof (Z.mod_pos_bound (Z.of_nat n + B - 1) B ltac:(lia)) as Hm.
  pose proof (Z.div_mod (Z.of_nat n + B - 1) B ltac:(lia)) as Hd.
  nia.
Qed.

Lemma batches_concat {A : Type} (images : list A) (B : Z) : 1 <= B ->
  concat (batches images B) = images.
Proof.
  intros HB. rewrite batches_nat by assumption.
  apply chunks_concat. apply batches_count_bound. assumption.
Qed.

Lemma batches_sizes {A : Type} (images : list A) (B : Z) : 1 <= B ->
  Forall (fun c : list A => 1 <= Z.of_nat (length c) <= B) (batches images B).
Proof.
  intros HB. rewrite batches_nat by assumption.
  apply Forall_map, Forall_forall. intros k Hk.
  apply list_elem_of_In, in_seq in Hk. 
  rewrite length_firstn, length_skipn.
  assert (H0 : 0 <= (Z.of_nat (length images) + B - 1) / B) by (apply Z.div_pos; lia).
  pose proof (Z.mod_pos_bound (Z.of_nat (length images) + B - 1) B ltac:(lia)) as Hm.
  pose proof (Z.div_mod (Z.of_nat (length images) + B - 1) B ltac:(lia)) as Hd.
  nia.
Qed.

Lemma batches_nil {A : Type} (B : Z) : batches (@nil A) B = [].
Proof.
  unfold batches, py_range3. destruct (B =? 0); [reflexivity|].
  replace (range_len 0 (Z.of_nat (length (@nil A))) B) with 0; [reflexivity|].
  unfold range_len. simpl length. simpl Z.of_nat.
  destruct (0 <? B) eqn:E.
  - apply Z.ltb_lt in E. rewrite Z.div_small by lia. reflexivity.
  - apply Z.ltb_ge in E. symmetry. apply Z.max_l.
    destruct (Z.eq_dec B 0) as [->|Hne]; [reflexivity|].
    rewrite Z.div_small by lia. lia.
Qed.

(** ** Arrays *)

Lemma arr_flatten_map (f : float32 -> float32) (a : ndarray) :
  arr_flatten (arr_map f a) = map f (arr_flatten a).
Proof. destruct a as [v|k rows]; [reflexivity | symmetry; apply concat_map]. Qed.


Lemma np_vstack_same_width (k : nat) (rs : list (list (list float32))) :
  rs <> [] -> np_vstack (map (Arr2 k) rs) = Ok (Arr2 k (concat rs)).
Proof.
  destruct rs as [|r rs]; [congruence|]. intros _.
  assert (Hrows : forall l : list (list (list float32)),
            map arr_rows (map (Arr2 k) l) = l).
  { intros l. rewrite map_map. cbn [arr_rows]. apply map_id. }
  unfold np_vstack. rewrite Hrows. cbn [map arr_ncols].
  replace (forallb (fun b : ndarray => (arr_ncols b =? k)%nat) (map (Arr2 k) rs))
    with true.
  - reflexivity.
  - symmetry. apply forallb_forall. intros b Hb.
    apply in_map_iff in Hb as (r' & <- & _). apply Nat.eqb_refl.
Qed.

Lemma np_vstack_ok (arrays : list ndarray) (a : ndarray) :
  np_vstack arrays = Ok a ->
  exists (a0 : ndarray) (rest : list ndarray),
    arrays = a0 :: rest /\
    a = Arr2 (arr_ncols a0) (concat (map arr_rows arrays)) /\
    Forall (fun b : ndarray => arr_ncols b = arr_ncols a0) rest.
Proof.
  destruct arrays as [|a0 rest]; [discriminate|]. unfold np_vstack.
  destruct (forallb _ rest) eqn:E; [|discriminate].
  intros H. injection H as <-. exists a0, rest. repeat split.
  apply Forall_forall. intros b Hb. apply list_elem_of_In in Hb.
  rewrite forallb_forall in E. apply Nat.eqb_eq, E, Hb.
Qed.

Lemma np_vstack_width (k : nat) (arrays : list ndarray) :
  arrays <> [] ->
  Forall (fun a : ndarray => arr_ncols a = k) arrays ->
  np_vstack arrays = Ok (Arr2 k (concat (map arr_rows arrays))).
Proof.
  destruct arrays as [|a0 rest]; [congruence|]. intros _ Hall.
  apply Forall_cons in Hall as [Ha0 Hrest]. unfold np_vstack. rewrite Ha0.
  replace (forallb (fun b : ndarray => (arr_ncols b =? k)%nat) rest) with true;
    [reflexivity|].
  symmetry. apply forallb_forall. intros b Hb. apply Nat.eqb_eq.
  rewrite Forall_forall in Hrest. apply Hrest, list_elem_of_In, Hb.
Qed.

Lemma np_vstack_raises (arrays : list ndarray) (ex : exn) :
  np_vstack arrays = Raise ex -> ex = ValueError.
Proof.
  destruct arrays as [|a0 rest]; unfold np_vstack.
  - intros H. injection H as <-. reflexivity.
  - destruct (forallb _ rest); [discriminate|]. intros H. injection H as <-. reflexivity.
Qed.

Lemma batches_nonpos {A : Type} (images : list A) (B : Z) :
  B <= 0 -> batches images B = [].
Proof.
  intros HB. unfold batches, py_range3.
  destruct (B =? 0) eqn:E; [reflexivity|]. apply Z.eqb_neq in E.
  replace (range_len 0 (Z.of_nat (length images)) B) with 0; [reflexivity|].
  unfold range_len. destruct (0 <? B) eqn:E1; [apply Z.ltb_lt in E1; lia|].
  symmetry. apply Z.max_l.
  assert (H : (0 - Z.of_nat (length images) - B - 1) / (- B) < 1); [|lia].
  apply Z.div_lt_upper_bound; lia.
Qed.

Lemma batches_nonempty {A : Type} (images : list A) (B : Z) :
  1 <= B -> images <> [] -> batches images B <> [].
Proof.
  intros HB Hne Hnil. apply Hne.
  rewrite <- (batches_concat images B HB), Hnil. reflexivity.
Qed.

(** ** Paths *)

Lemma list_ascii_of_string_append (s t : string) :
  list_ascii_of_string (s +:+ t) = list_ascii_of_string s ++ list_ascii_of_string t.
Proof. induction s as [|c s IH]; simpl; [reflexivity | rewrite IH; reflexivity]. Qed.

Lemma last_char_append (s t : string) (c : ascii) :
  last_char t = Some c -> last_char (s +:+ t) = Some c.
Proof.
  unfold last_char. intros H. rewrite list_ascii_of_string_append, last_app, H.
  reflexivity.
Qed.

(** The path that [os.path.join] builds for a relative file name: the
    directory, a separator unless the directory is empty or ends in one, and
    the name. *)
Lemma os_path_join_relative (a p : string) :
  String.prefix "/" p = false ->
  os_path_join a p =
  a +:+ (if decide (a = EmptyString \/ last_char a = Some "/"%char)
         then EmptyString else "/"%string) +:+ p.
Proof.
  intros Hp. unfold os_path_join. rewrite Hp.
  destruct (last_char a) as [c|] eqn:E.
  - destruct (Ascii.eqb c "/") eqn:Ec.
    + apply Ascii.eqb_eq in Ec. subst c.
      destruct (decide _) as [_|n]; [reflexivity|]. exfalso. apply n. right. reflexivity.
    + destruct (decide _) as [[->|H]|_]; [discriminate E| |reflexivity].
      injection H as ->. rewrite Ascii.eqb_refl in Ec. discriminate.
  - destruct (decide _) as [_|n]; [reflexivity|].
    exfalso. apply n. left. unfold last_char in E. apply last_None in E.
    destruct a; [reflexivity | discriminate].
Qed.

Lemma os_path_join_last (a p : string) (c : ascii) :
  String.prefix "/" p = false -> last_char p = Some c ->
  last_char (os_path_join a p) = Some c.
Proof.
  intros Hp Hc. rewrite os_path_join_relative by assumption.
  apply last_char_append, last_char_append, Hc.
Qed.

Lemma excel_output_ne_model_save_path (cfg : Config) :
  excel_output cfg <> model_save_path cfg.
Proof.
  intros H. apply (f_equal last_char) in H.
  unfold excel_output, model_save_path in H.
  rewrite (last_char_append _ _ "x"%char) in H
    by (apply last_char_append; reflexivity).
  rewrite (os_path_join_last _ _ "h"%char) in H.
  - discriminate.
  - reflexivity.
  - apply last_char_append, last_char_append. reflexivity.
Qed.

Section Proofs.

Context {Img Params OptState Metric : Type}.
Variable forward : Params -> bool -> list Img -> ndarray.
Variable init_params : Params.
Variable init_opt_state : float64 -> OptState.
Variable adam_update :
  OptState -> Params -> list Img -> list float32 -> Params * OptState.
Variable rmse_value : list float32 -> list float32 -> Metric.
Variable r2_value : list float32 -> list float32 -> Metric.

Local Abbreviation World := (@World Params OptState Metric).
Local Abbreviation Event := (@Event Metric).

Implicit Types (w : World) (images : list Img) (B : Z).
Implicit Types (cfg : Config) (data : @Dataset Img).

(** ** Worlds *)

Lemma log_events_nil w : log_events [] w = w.
Proof. destruct w. unfold log_events. simpl. rewrite app_nil_r. reflexivity. Qed.

Lemma log_events_app (a b : list Event) w :
  log_events b (log_events a w) = log_events (a ++ b) w.
Proof. unfold log_events. simpl. rewrite app_assoc. reflexivity. Qed.

(** ** The batched predictor *)

Lemma predict_loop_run images B : forall (idx : list Z) (preds : list ndarray) w,
  predict_loop forward images B idx preds w =
  (Ok (preds ++ map (fun i : Z => forward (params w) (training w) (slice images i (i + B))) idx),
   log_events (map (fun i : Z => EvForward (training w) (grad_enabled w)
                                          (length (slice images i (i + B)))) idx) w).
Proof.
  induction idx as [|i idx IH]; intros preds w.
  - simpl. unfold ret. rewrite app_nil_r, log_events_nil. reflexivity.
  - simpl. unfold bind, call_model. rewrite IH. simpl.
    rewrite log_events_app, <- app_assoc. reflexivity.
Qed.

(** The whole call in closed form: the result is [np.vstack] of the model's
    evaluation-mode outputs on the batches, and the world afterwards is the
    one before with the model in evaluation mode and the call's events added. *)
Lemma predict_in_batches_run images B w :
  predict_in_batches forward images B w =
  (np_vstack (map (forward (params w) false) (batches images B)),
   log_events (predict_events images B) (set_training false w)).
Proof.
  unfold predict_in_batches, predict_events, bind, model_eval, with_no_grad, lift, batches.
  destruct (py_range3 0 (Z.of_nat (length images)) B) as [idx|e] eqn:E; simpl.
  - rewrite (predict_loop_run images B). simpl.
    rewrite map_map.
    destruct (np_vstack _) eqn:Ev; unfold log_events, set_grad, set_training; simpl;
      rewrite <- app_assoc, map_map; reflexivity.
  - unfold py_range3 in E. destruct (B =? 0); [|discriminate].
    injection E as <-. unfold log_events, set_grad, set_training. simpl. reflexivity.
Qed.

(** ** The training phase *)

Lemma for_each_train_run (bs : list (list Img * list float32)) : forall w,
  for_each (train_batch forward adam_update) bs w =
  (Ok tt,
   log_events
     (flat_map (fun b : list Img * list float32 =>
                  [EvZeroGrad; EvForward (training w) (grad_enabled w) (length (fst b));
                   EvBackward; EvStep]) bs)
     (set_model (fst (fit_batches adam_update (params w, opt_state w) bs))
                (snd (fit_batches adam_update (params w, opt_state w) bs)) w)).
Proof.
  induction bs as [|b bs IH]; intros w.
  - simpl. unfold ret. destruct w. unfold log_events, set_model. simpl.
    rewrite app_nil_r. reflexivity.
  - cbn [for_each]. unfold bind at 1.
    unfold train_batch, bind, log, call_model, optimizer_step. simpl.
    destruct (adam_update (opt_state w) (params w) (fst b) (snd b)) as [p o] eqn:E.
    rewrite IH. simpl.
    unfold log_events, set_model. simpl.
    rewrite <- !app_assoc. reflexivity.
Qed.

(** ** The evaluation step *)

Lemma evaluate_ok cfg data e w loc w1 :
  evaluate forward rmse_value r2_value cfg data e w = (Ok loc, w1) ->
  exists trp tep,
    evaluated forward cfg data (params w) trp tep /\
    loc = mkLocals (Some trp) (Some tep) /\
    w1 = log_events (eval_events rmse_value r2_value cfg data e trp tep)
                    (set_training false w).
Proof.
  unfold evaluate, bind. rewrite predict_in_batches_run.
  destruct (np_vstack (map (forward (params w) false) _)) as [trp|] eqn:E1; [|discriminate].
  rewrite predict_in_batches_run. simpl params.
  destruct (np_vstack (map (forward (params w) false)
              (batches (test_images data) (test_batch_size cfg)))) as [tep|] eqn:E2;
    [|discriminate].
  unfold sk_metric.
  destruct ((length (train_labels data) =? arr_len trp)%nat &&
            (arr_outputs trp =? 1)%nat) eqn:L1; [|discriminate].
  unfold ret at 1.
  destruct ((length (test_labels data) =? arr_len tep)%nat &&
            (arr_outputs tep =? 1)%nat) eqn:L2; [|discriminate].
  unfold ret, log. intros H. injection H as <- <-.
  exists trp, tep. split; [|split].
  - unfold evaluated, batched_forward.
    apply andb_true_iff in L1 as [L1 O1], L2 as [L2 O2].
    apply Nat.eqb_eq in L1, L2, O1, O2. auto 10.
  - reflexivity.
  - unfold eval_events, log_events, set_training. simpl.
    rewrite <- !app_assoc. reflexivity.
Qed.

(** ** One epoch, then the loop *)

Lemma epoch_body_ok cfg data e loc w loc1 w1 :
  epoch_body forward adam_update rmse_value r2_value cfg data e loc w = (Ok loc1, w1) ->
  let po := fit_batches adam_update (params w, opt_state w) (train_loader data e) in
  let tr := training_events (grad_enabled w) (train_loader data e) in
  params w1 = fst po /\ opt_state w1 = snd po /\
  grad_enabled w1 = grad_enabled w /\
  fs_dirs w1 = fs_dirs w /\ fs_files w1 = fs_files w /\
  ((should_evaluate e (num_epochs cfg) = false /\ loc1 = loc /\
    trace w1 = trace w ++ tr) \/
   (should_evaluate e (num_epochs cfg) = true /\
    exists trp tep,
      evaluated forward cfg data (fst po) trp tep /\
      loc1 = mkLocals (Some trp) (Some tep) /\
      trace w1 = trace w ++ tr ++ eval_events rmse_value r2_value cfg data e trp tep)).
Proof.
  unfold epoch_body, bind at 1. unfold model_train.
  unfold bind. rewrite for_each_train_run. simpl.
  destruct (should_evaluate e (num_epochs cfg)) eqn:Hs.
  - intros H. apply evaluate_ok in H as (trp & tep & Hev & -> & ->).
    simpl. repeat split; try reflexivity.
    right. split; [reflexivity|]. exists trp, tep.
    repeat split; try apply Hev.
    unfold training_events. simpl. rewrite <- !app_assoc. reflexivity.
  - unfold ret. intros H. injection H as <- <-. simpl.
    repeat split; try reflexivity.
    left. repeat split. unfold training_events. simpl.
    rewrite <- !app_assoc. reflexivity.
Qed.

Lemma epochs_loop_ok cfg data : forall (es : list Z) loc w loc' w',
  epochs_loop forward adam_update rmse_value r2_value cfg data es loc w = (Ok loc', w') ->
  exists evs,
    epochs_run forward adam_update rmse_value r2_value cfg data (grad_enabled w)
               (params w, opt_state w) loc es evs (params w', opt_state w') loc' /\
    trace w' = trace w ++ evs /\
    grad_enabled w' = grad_enabled w /\
    fs_dirs w' = fs_dirs w /\ fs_files w' = fs_files w.
Proof.
  induction es as [|e es IH]; intros loc w loc' w' H.
  - simpl in H. unfold ret in H. injection H as <- <-.
    exists []. rewrite app_nil_r. repeat split. constructor.
  - cbn [epochs_loop] in H. unfold bind in H.
    destruct (epoch_body _ _ _ _ cfg data e loc w) as [[loc1|ex] w1] eqn:E; [|discriminate].
    apply epoch_body_ok in E. cbv zeta in E.
    destruct E as (Hp & Ho & Hg & Hd & Hf & Hcase).
    apply IH in H as (evs & Hrun & Htr & Hg' & Hd' & Hf').
    rewrite Hp, Ho, <- surjective_pairing, Hg in Hrun.
    destruct Hcase as [(Hs & -> & Ht) | (Hs & trp & tep & Hev & -> & Ht)].
    + eexists. split; [eapply run_train_only; eassumption|].
      rewrite Htr, Ht, <- app_assoc. repeat split; congruence.
    + eexists. split; [eapply run_train_eval; eassumption|].
      rewrite Htr, Ht, <- !app_assoc. repeat split; congruence.
Qed.

(** ** Reading the events of a run *)

Lemma logged_epochs_app (a b : list Event) :
  logged_epochs (a ++ b) = logged_epochs a ++ logged_epochs b.
Proof. unfold logged_epochs. apply flat_map_app. Qed.

Lemma logged_epochs_predict images B :
  logged_epochs (predict_events images B : list Event) = [].
Proof.
  unfold predict_events. simpl.
  induction (batches images B) as [|c l IH]; simpl; [reflexivity | exact IH].
Qed.

Lemma logged_epochs_training (g : bool) (bs : list (list Img * list float32)) :
  logged_epochs (training_events g bs : list Event) = [].
Proof.
  unfold training_events. simpl.
  induction bs as [|b bs IH]; simpl; [reflexivity | exact IH].
Qed.

Lemma logged_epochs_eval cfg data e trp tep :
  logged_epochs (eval_events rmse_value r2_value cfg data e trp tep) = [e].
Proof.
  unfold eval_events. rewrite !logged_epochs_app, !logged_epochs_predict. reflexivity.
Qed.

Lemma optimizer_free_predict images B :
  Forall (fun ev : Event => is_optimizer_event ev = false) (predict_events images B).
Proof.
  unfold predict_events. constructor; [reflexivity|].
  apply Forall_map, Forall_forall. intros; reflexivity.
Qed.

Lemma optimizer_free_eval cfg data e trp tep :
  Forall (fun ev : Event => is_optimizer_event ev = false)
         (eval_events rmse_value r2_value cfg data e trp tep).
Proof.
  unfold eval_events. rewrite !Forall_app.
  split; [apply optimizer_free_predict|].
  split; [apply optimizer_free_predict|]. constructor; [reflexivity | constructor].
Qed.

Lemma no_files_predict images B :
  Forall (fun ev : Event => is_save ev = false /\ is_excel ev = false)
         (predict_events images B).
Proof.
  unfold predict_events. constructor; [split; reflexivity|].
  apply Forall_map, Forall_forall. intros; split; reflexivity.
Qed.

Lemma no_files_training (g : bool) (bs : list (list Img * list float32)) :
  Forall (fun ev : Event => is_save ev = false /\ is_excel ev = false)
         (training_events g bs).
Proof.
  unfold training_events. constructor; [split; reflexivity|].
  induction bs as [|b bs IH]; simpl; [constructor|].
  repeat (constructor; [split; reflexivity|]). exact IH.
Qed.

Section Runs.

Variables (cfg : Config) (data : @Dataset Img) (g : bool).

Local Abbreviation run :=
  (epochs_run forward adam_update rmse_value r2_value cfg data g).

(** The metrics line is printed for exactly the scheduled epochs, in order. *)
Lemma epochs_run_logged po loc es evs po' loc' :
  run po loc es evs po' loc' ->
  logged_epochs evs =
  List.filter (fun e : Z => should_evaluate e (num_epochs cfg)) es.
Proof.
  induction 1 as [| po loc e rest evs po' loc' Hs _ IH
                  | po loc e rest evs po' loc' trp tep Hs _ _ IH].
  - reflexivity.
  - cbn [List.filter]. rewrite Hs, logged_epochs_app, logged_epochs_training. exact IH.
  - cbn [List.filter].
    rewrite Hs, !logged_epochs_app, logged_epochs_training, logged_epochs_eval, IH.
    reflexivity.
Qed.

(** The loop writes no file. *)
Lemma epochs_run_no_files po loc es evs po' loc' :
  run po loc es evs po' loc' ->
  Forall (fun ev : Event => is_save ev = false /\ is_excel ev = false) evs.
Proof.
  induction 1 as [| po loc e rest evs po' loc' Hs _ IH
                  | po loc e rest evs po' loc' trp tep Hs _ _ IH].
  - constructor.
  - rewrite Forall_app. split; [apply no_files_training | exact IH].
  - unfold eval_events. rewrite !Forall_app.
    repeat split; try apply no_files_training; try apply no_files_predict; try exact IH.
    constructor; [split; reflexivity | constructor].
Qed.

(** When the last epoch of the loop is an evaluation epoch, the run ends with
    that evaluation: nothing follows it, the retained predictions are its
    predictions, and they are those of the final model. *)
Lemma epochs_run_last po loc es evs po' loc' (e : Z) :
  run po loc es evs po' loc' ->
  last es = Some e -> should_evaluate e (num_epochs cfg) = true ->
  exists pre trp tep,
    evs = pre ++ eval_events rmse_value r2_value cfg data e trp tep /\
    loc' = mkLocals (Some trp) (Some tep) /\
    evaluated forward cfg data (fst po') trp tep.
Proof.
  induction 1 as [| po loc e0 rest evs po' loc' Hs Hrun IH
                  | po loc e0 rest evs po' loc' trp tep Hs Hev Hrun IH];
    intros Hlast He.
  - discriminate.
  - destruct rest as [|e1 rest].
    + injection Hlast as ->. congruence.
    + rewrite last_cons_cons in Hlast.
      destruct (IH Hlast He) as (pre & trp & tep & -> & -> & Hev).
      exists (training_events g (train_loader data e0) ++ pre), trp, tep.
      rewrite <- app_assoc. auto.
  - destruct rest as [|e1 rest].
    + injection Hlast as ->. inversion Hrun; subst.
      exists (training_events g (train_loader data e)), trp, tep.
      rewrite app_nil_r. auto.
    + rewrite last_cons_cons in Hlast.
      destruct (IH Hlast He) as (pre & trp' & tep' & -> & -> & Hev').
      exists (training_events g (train_loader data e0) ++
              eval_events rmse_value r2_value cfg data e0 trp tep ++ pre), trp', tep'.
      rewrite <- !app_assoc. auto.
Qed.

End Runs.

(** ** The schedule *)

Lemma should_evaluate_spec (e n : Z) :
  should_evaluate e n = true <-> e mod 5 = 0 \/ e = n - 1.
Proof.
  unfold should_evaluate. rewrite orb_true_iff, !Z.eqb_eq. reflexivity.
Qed.

Lemma should_evaluate_final (n : Z) : should_evaluate (n - 1) n = true.
Proof. apply should_evaluate_spec. right. reflexivity. Qed.

Lemma py_range_In (n e : Z) : In e (py_range n) <-> 0 <= e < n.
Proof.
  unfold py_range. rewrite in_map_iff. split.
  - intros (k & <- & Hk). apply in_seq in Hk. lia.
  - intros He. exists (Z.to_nat e). split; [lia|]. apply in_seq. lia.
Qed.

Lemma py_range_nonpos (n : Z) : n <= 0 -> py_range n = [].
Proof.
  intros Hn. unfold py_range. replace (Z.to_nat n) with 0%nat by lia. reflexivity.
Qed.

Lemma py_range_last (n : Z) : 1 <= n -> last (py_range n) = Some (n - 1).
Proof.
  intros Hn. unfold py_range.
  replace (Z.to_nat n) with (S (Z.to_nat (n - 1))) by lia.
  rewrite seq_S, map_app. cbn [map]. rewrite last_snoc. f_equal. lia.
Qed.

(** ** Completed runs of [train] *)

Lemma train_ok cfg data w w' :
  train forward init_params init_opt_state adam_update rmse_value r2_value cfg data w
  = (Ok tt, w') ->
  exists evs trp tep,
    1 <= num_epochs cfg /\
    epochs_run forward adam_update rmse_value r2_value cfg data (grad_enabled w)
               (init_params, init_opt_state (lr cfg)) (mkLocals None None)
               (py_range (num_epochs cfg)) evs
               (params w', opt_state w') (mkLocals (Some trp) (Some tep)) /\
    evaluated forward cfg data (params w') trp tep /\
    (exists pre,
        evs = pre ++ eval_events rmse_value r2_value cfg data (num_epochs cfg - 1) trp tep) /\
    trace w' = trace w ++ EvPrintDevice :: evs ++ closing_events cfg /\
    fs_files w' =
      <[model_save_path cfg := Checkpoint (params w') (mean_val data) (std_val data)]>
        (<[excel_output cfg := report data trp tep]> (fs_files w)) /\
    fs_dirs w' = {[model_dir cfg]} ∪ fs_dirs w /\
    model_dir cfg <> EmptyString /\
    grad_enabled w' = grad_enabled w /\
    length (train_labels data) = length (arr_flatten trp) /\
    length (test_labels data) = length (arr_flatten tep).
Proof.
  unfold train. unfold bind at 1. unfold log at 1. unfold bind at 1.
  unfold init_model at 1. unfold bind at 1.
  destruct (epochs_loop _ _ _ _ cfg data _ _ _) as [[loc|ex] w1] eqn:E; [|discriminate].
  apply epochs_loop_ok in E as (evs & Hrun & Htr & Hg & Hd & Hf).
  simpl in Hrun, Htr, Hg, Hd, Hf.
  destruct (Z_le_gt_dec (num_epochs cfg) 0) as [Hn|Hn].
  { rewrite py_range_nonpos in Hrun by assumption. inversion Hrun; subst.
    simpl. unfold bind, read_local, raise. simpl. discriminate. }
  destruct (epochs_run_last cfg data _ _ _ _ _ _ _ (num_epochs cfg - 1) Hrun)
    as (pre & trp & tep & Hevs & -> & Hev).
  { apply py_range_last. lia. }
  { apply should_evaluate_final. }
  simpl in Hev.
  unfold bind, read_local, ret, lift. cbn [train_preds test_preds].
  unfold pd_DataFrame, denormalize. rewrite !arr_flatten_map, !length_map.
  cbn [arr_flatten].
  destruct (length (train_labels data) =? length (arr_flatten trp))%nat eqn:D1;
    [|discriminate].
  destruct (length (test_labels data) =? length (arr_flatten tep))%nat eqn:D2;
    [|discriminate].
  apply Nat.eqb_eq in D1, D2.
  unfold write_file at 1.
  destruct (decide (excel_output cfg ∈ fs_dirs w1)) as [|_]; [discriminate|].
  unfold log at 1. unfold os_makedirs_exist_ok.
  destruct (decide (model_dir cfg = EmptyString)) as [|Hdir]; [discriminate|].
  simpl.
  destruct (<[excel_output cfg:=_]> (fs_files w1) !! model_dir cfg); [discriminate|].
  unfold torch_save, bind, write_file. simpl.
  destruct (decide (model_save_path cfg ∈ _)) as [|_]; [discriminate|].
  unfold log. simpl. intros H. injection H as <-. simpl.
  exists evs, trp, tep.
  split; [lia|]. split; [exact Hrun|]. split; [exact Hev|].
  split; [exists pre; exact Hevs|].
  split; [rewrite Htr; unfold closing_events; rewrite <- !app_assoc; reflexivity|].
  split.
  { rewrite Hf. unfold report, report_sheet, denormalize.
    rewrite !arr_flatten_map. reflexivity. }
  split; [rewrite Hd; reflexivity|]. split; [exact Hdir|]. split; [exact Hg|].
  split; assumption.
Qed.

(** ** The metrics lines and what precedes them *)

Lemma metrics_log_training (g : bool) (bs : list (list Img * list float32))
    (rest : list Event) : forall t s : nat,
  metrics_log t s (training_events g bs ++ rest) =
  metrics_log (S t) (s + length bs) rest.
Proof.
  unfold training_events. cbn [app metrics_log]. intros t.
  induction bs as [|b bs IH]; intros s.
  - simpl. rewrite Nat.add_0_r. reflexivity.
  - cbn [flat_map app metrics_log length]. rewrite IH. f_equal. lia.
Qed.

Lemma metrics_log_predict images B (rest : list Event) (t s : nat) :
  metrics_log t s (predict_events images B ++ rest) = metrics_log t s rest.
Proof.
  unfold predict_events. cbn [app metrics_log].
  induction (batches images B) as [|c l IH]; [reflexivity | exact IH].
Qed.

Lemma metrics_log_eval cfg data e trp tep (rest : list Event) (t s : nat) :
  metrics_log t s (eval_events rmse_value r2_value cfg data e trp tep ++ rest) =
  (e, t, s) :: metrics_log t s rest.
Proof.
  unfold eval_events. rewrite <- !app_assoc, !metrics_log_predict. reflexivity.
Qed.

Lemma epochs_run_metrics_log cfg data (g : bool) : forall (m k t s : nat) po loc evs po' loc',
  epochs_run forward adam_update rmse_value r2_value cfg data g
             po loc (map Z.of_nat (seq k m)) evs po' loc' ->
  metrics_log t s evs =
  map (fun e : Z =>
         (e, (t + (Z.to_nat e - k) + 1)%nat,
          (s + list_sum (map (fun j : nat => length (train_loader data (Z.of_nat j)))
                             (seq k (Z.to_nat e + 1 - k))))%nat))
      (List.filter (fun e : Z => should_evaluate e (num_epochs cfg))
                   (map Z.of_nat (seq k m))).
Proof.
  induction m as [|m IH]; intros k t s po loc evs po' loc' Hrun.
  - inversion Hrun; subst. reflexivity.
  - cbn [seq map] in Hrun |- *.
    assert (Hext : forall t' s' : nat,
      t' = S t -> s' = (s + length (train_loader data (Z.of_nat k)))%nat ->
      map (fun e : Z =>
             (e, (t' + (Z.to_nat e - S k) + 1)%nat,
              (s' + list_sum (map (fun j : nat => length (train_loader data (Z.of_nat j)))
                                  (seq (S k) (Z.to_nat e + 1 - S k))))%nat))
          (List.filter (fun e : Z => should_evaluate e (num_epochs cfg))
                       (map Z.of_nat (seq (S k) m))) =
      map (fun e : Z =>
             (e, (t + (Z.to_nat e - k) + 1)%nat,
              (s + list_sum (map (fun j : nat => length (train_loader data (Z.of_nat j)))
                                 (seq k (Z.to_nat e + 1 - k))))%nat))
          (List.filter (fun e : Z => should_evaluate e (num_epochs cfg))
                       (map Z.of_nat (seq (S k) m)))).
    { intros t' s' -> ->. apply map_ext_in. intros e He.
      apply filter_In in He as [He _]. apply in_map_iff in He as (j & <- & Hj).
      apply in_seq in Hj. rewrite Nat2Z.id.
      replace (j + 1 - k)%nat with (S (j + 1 - S k)) by lia.
      unfold list_sum. cbn [seq map fold_right]. f_equal; [f_equal; lia | lia]. }
    inversion Hrun as [| ? ? ? ? ? ? ? Hs Hrest | ? ? ? ? ? ? ? ? ? Hs Hev Hrest]; subst.
    + cbn [List.filter]. rewrite Hs, metrics_log_training.
      rewrite (IH _ _ _ _ _ _ _ _ Hrest). apply Hext; reflexivity.
    + cbn [List.filter]. rewrite Hs, metrics_log_training, metrics_log_eval.
      cbn [map]. f_equal.
      * rewrite Nat2Z.id. replace (k + 1 - k)%nat with 1%nat by lia.
        unfold list_sum. cbn [seq map fold_right]. f_equal; [f_equal; lia | lia].
      * rewrite (IH _ _ _ _ _ _ _ _ Hrest). apply Hext; reflexivity.
Qed.

Lemma filter_none {A : Type} (f : A -> bool) (l : list A) :
  Forall (fun x : A => f x = false) l -> List.filter f l = [].
Proof.
  induction 1 as [|x l Hx _ IH]; [reflexivity|].
  cbn [List.filter]. rewrite Hx. exact IH.
Qed.

Lemma train_completed cfg data w :
  fst (train forward init_params init_opt_state adam_update rmse_value r2_value
             cfg data w) = Ok tt ->
  train forward init_params init_opt_state adam_update rmse_value r2_value cfg data w
  = (Ok tt,
     snd (train forward init_params init_opt_state adam_update rmse_value r2_value
                cfg data w)).
Proof. destruct (train _ _ _ _ _ _ cfg data w) as [r w']. simpl. intros ->. reflexivity. Qed.

Lemma steps_through_seq data (e : Z) : 0 <= e ->
  steps_through data e =
  list_sum (map (fun j : nat => length (train_loader data (Z.of_nat j)))
                (seq 0 (Z.to_nat e + 1 - 0))).
Proof.
  intros He. unfold steps_through, py_range. rewrite map_map.
  replace (Z.to_nat (e + 1)) with (Z.to_nat e + 1 - 0)%nat by lia. reflexivity.
Qed.

(** * The claims *)

(** C1, as amended.  For a model whose evaluation-mode output is a
    two-dimensional tensor with one row per image, each row depending on its
    image only (the output on a batch is the rows [f x] of its images [x]),
    for a non-empty input of N images and a batch size B >= 1,
    [predict_in_batches] returns exactly N rows, equal to running the model
    in evaluation mode on the whole input at once.  The input is cut into
    consecutive batches of at least one and at most B images, each batch is
    one forward pass, and the output rows are stacked in input order. *)
Theorem predict_in_batches_whole_input (k : nat) (f : Img -> list float32) images B w :
  (forall batch : list Img, forward (params w) false batch = Arr2 k (map f batch)) ->
  images <> [] ->
  1 <= B ->
  let r := predict_in_batches forward images B w in
  fst r = Ok (forward (params w) false images) /\
  arr_len (forward (params w) false images) = length images /\
  concat (batches images B) = images /\
  Forall (fun c : list Img => 1 <= Z.of_nat (length c) <= B) (batches images B) /\
  fst r = Ok (Arr2 k (concat (map (map f) (batches images B)))) /\
  trace (snd r) =
    trace w ++ EvModelEval ::
    map (fun c : list Img => EvForward false false (length c)) (batches images B).
Proof.
  intros Hf Hne HB r. subst r. rewrite predict_in_batches_run. cbn [fst snd].
  assert (Hv : np_vstack (map (forward (params w) false) (batches images B)) =
               Ok (Arr2 k (concat (map (map f) (batches images B))))).
  { rewrite (map_ext _ _ Hf), <- (map_map (map f) (Arr2 k)).
    apply np_vstack_same_width.
    pose proof (batches_nonempty images B HB Hne) as Hb.
    destruct (batches images B); [congruence | discriminate]. }
  assert (Hc : Arr2 k (concat (map (map f) (batches images B))) =
               forward (params w) false images).
  { rewrite <- concat_map, batches_concat by assumption. symmetry. apply Hf. }
  repeat split.
  - rewrite Hv, Hc. reflexivity.
  - rewrite Hf. apply length_map.
  - apply batches_concat. assumption.
  - apply batches_sizes. assumption.
  - exact Hv.
Qed.

(** C2.  On an input with no images, [predict_in_batches] does not return an
    empty output: the loop makes no pass, [np.vstack] receives an empty list
    and raises [ValueError], whatever the batch size. *)
Theorem predict_in_batches_empty_input B w :
  fst (predict_in_batches forward [] B w) = Raise ValueError.
Proof. rewrite predict_in_batches_run, batches_nil. reflexivity. Qed.

(** C8.  Every call of [predict_in_batches] first puts the model in
    evaluation mode; every forward pass of the call runs in evaluation mode
    with gradient tracking off; on return the model is in evaluation mode
    whatever its mode was before, and the gradient flag is what it was before
    the call. *)
Theorem predict_in_batches_eval_mode images B w :
  let w' := snd (predict_in_batches forward images B w) in
  training w' = false /\
  grad_enabled w' = grad_enabled w /\
  exists evs : list Event,
    trace w' = trace w ++ EvModelEval :: evs /\
    Forall (fun ev : Event => exists n : nat, ev = EvForward false false n) evs.
Proof.
  rewrite predict_in_batches_run. cbn [snd]. repeat split.
  eexists. split; [reflexivity|].
  apply Forall_map, Forall_forall. intros c _. exists (length c). reflexivity.
Qed.

(** C9.  A call of [predict_in_batches] leaves the model's parameters (and
    the optimizer state) as they were: among its events there is no
    [zero_grad], backward pass or optimizer step. *)
Theorem predict_in_batches_keeps_params images B w :
  let w' := snd (predict_in_batches forward images B w) in
  params w' = params w /\
  opt_state w' = opt_state w /\
  exists evs : list Event,
    trace w' = trace w ++ evs /\
    Forall (fun ev : Event => is_optimizer_event ev = false) evs.
Proof.
  rewrite predict_in_batches_run. cbn [snd]. repeat split.
  exists (predict_events images B). split; [reflexivity|].
  apply optimizer_free_predict.
Qed.

(** ** Denormalization *)

Lemma denormalize_flatten (arr : ndarray) (std mean : float64) :
  arr_flatten (denormalize arr std mean) =
  map (fun v : float32 => f32_add (f32_mul v (f32_of_float std)) (f32_of_float mean))
      (arr_flatten arr).
Proof. unfold denormalize. apply arr_flatten_map. Qed.


Lemma report_sheet_rows (labels : list float32) (preds : ndarray) (std mean : float64) :
  sheet_rows (report_sheet labels preds std mean) =
  map (fun xy : float32 * float32 => [fst xy; snd xy])
      (combine
         (map (fun v : float32 =>
                 f32_add (f32_mul v (f32_of_float std)) (f32_of_float mean)) labels)
         (map (fun v : float32 =>
                 f32_add (f32_mul v (f32_of_float std)) (f32_of_float mean))
              (arr_flatten preds))).
Proof. unfold report_sheet. cbn [sheet_rows]. rewrite !denormalize_flatten. reflexivity. Qed.

Lemma report_lookup cfg data w' (fs : gmap string (@File Params)) (trp tep : ndarray)
    (c : @File Params) :
  fs_files w' = <[model_save_path cfg := c]> (<[excel_output cfg := report data trp tep]> fs) ->
  fs_files w' !! excel_output cfg = Some (report data trp tep).
Proof.
  intros ->. rewrite lookup_insert_ne by (apply not_eq_sym, excel_output_ne_model_save_path).
  apply lookup_insert_eq.
Qed.

Local Abbreviation train_run :=
  (train forward init_params init_opt_state adam_update rmse_value r2_value).

(** C3.  In a run of [train] that completes, the epoch loop is, epoch by
    epoch, the training phase followed by the evaluation step exactly when
    [e % 5 == 0] or [e] is the last epoch: the metrics line is printed for
    those epochs of [range(num_epochs)] and no other, in order, and the line
    of epoch [e] comes when [e + 1] epochs have been started and the
    optimizer steps of the epochs [0 .. e], and no more, have been taken. *)
Theorem train_evaluation_schedule cfg data w :
  fst (train_run cfg data w) = Ok tt ->
  exists (evs : list Event) (po' : Params * OptState) (loc' : Locals),
    trace (snd (train_run cfg data w)) =
      trace w ++ EvPrintDevice :: evs ++ closing_events cfg /\
    epochs_run forward adam_update rmse_value r2_value cfg data (grad_enabled w)
               (init_params, init_opt_state (lr cfg)) (mkLocals None None)
               (py_range (num_epochs cfg)) evs po' loc' /\
    logged_epochs evs =
      List.filter (fun e : Z => should_evaluate e (num_epochs cfg))
                  (py_range (num_epochs cfg)) /\
    (forall e : Z,
        In e (logged_epochs evs) <->
        0 <= e < num_epochs cfg /\ (e mod 5 = 0 \/ e = num_epochs cfg - 1)) /\
    metrics_log 0 0 evs =
      map (fun e : Z => (e, (Z.to_nat e + 1)%nat, steps_through data e))
          (List.filter (fun e : Z => should_evaluate e (num_epochs cfg))
                       (py_range (num_epochs cfg))).
Proof.
  intros H. apply train_completed, train_ok in H.
  destruct H as (evs & trp & tep & Hn & Hrun & _ & _ & Htr & _).
  pose proof (epochs_run_logged _ _ _ _ _ _ _ _ _ Hrun) as Hlog.
  exists evs. eexists. eexists.
  split; [exact Htr|]. split; [exact Hrun|]. split; [exact Hlog|]. split.
  - intros e. rewrite Hlog, filter_In, py_range_In, should_evaluate_spec. reflexivity.
  - unfold py_range in Hrun |- *.
    rewrite (epochs_run_metrics_log _ _ _ _ 0%nat 0%nat 0%nat _ _ _ _ _ Hrun).
    apply map_ext_in. intros e He.
    apply filter_In in He as [He _]. apply in_map_iff in He as (j & <- & _).
    rewrite steps_through_seq by lia. f_equal. f_equal. lia.
Qed.

(** C4.  When no epoch of [range(num_epochs)] meets the evaluation condition,
    which is the case exactly for [num_epochs <= 0], [train_preds] is never
    assigned and [train] stops at the denormalization with
    [UnboundLocalError]; only the device line has been printed and no file
    has been written. *)
Theorem train_without_evaluation cfg data w :
  (forall e : Z, 0 <= e < num_epochs cfg ->
                 should_evaluate e (num_epochs cfg) = false) ->
  num_epochs cfg <= 0 /\
  fst (train_run cfg data w) = Raise UnboundLocalError /\
  trace (snd (train_run cfg data w)) = trace w ++ [EvPrintDevice] /\
  fs_files (snd (train_run cfg data w)) = fs_files w /\
  fs_dirs (snd (train_run cfg data w)) = fs_dirs w.
Proof.
  intros H.
  assert (Hn : num_epochs cfg <= 0).
  { destruct (Z_le_gt_dec (num_epochs cfg) 0) as [Hn|Hn]; [exact Hn|].
    specialize (H 0 ltac:(lia)). unfold should_evaluate in H. discriminate H. }
  split; [exact Hn|].
  unfold train. rewrite py_range_nonpos by assumption.
  repeat split.
Qed.



(** C7.  A completed run of [train] writes one report, the file
    [predictions_vs_actual_col{target}.xlsx].  It has the two sheets "Train"
    and "Test", each with the header "True", "Predicted" and nothing else (no
    index column) and one row of two values per sample: for the label [y]
    and the prediction [p] of the sample, the float32 values of
    [y * std + mean] and [p * std + mean], where the predictions are those of
    the final model, which is the model of the last evaluation pass.  The
    sheets have as many rows as the splits have labels and the prediction
    arrays have rows, and as many as the splits have images when the model's
    output has one row per image. *)
Theorem train_report cfg data w :
  fst (train_run cfg data w) = Ok tt ->
  let w' := snd (train_run cfg data w) in
  let cell := fun v : float32 =>
    f32_add (f32_mul v (f32_of_float (std_val data))) (f32_of_float (mean_val data)) in
  exists (trp tep : ndarray) (train_sheet test_sheet : Sheet),
    evaluated forward cfg data (params w') trp tep /\
    excel_output cfg = "predictions_vs_actual_col" +:+ target_col cfg +:+ ".xlsx" /\
    fs_files w' !! excel_output cfg =
      Some (Workbook [("Train"%string, train_sheet); ("Test"%string, test_sheet)]) /\
    (exists evs : list Event,
        trace w' = trace w ++ evs /\
        List.filter is_excel evs = [EvExcel (excel_output cfg)]) /\
    sheet_header train_sheet = ["True"%string; "Predicted"%string] /\
    sheet_header test_sheet = ["True"%string; "Predicted"%string] /\
    sheet_rows train_sheet =
      map (fun xy : float32 * float32 => [fst xy; snd xy])
          (combine (map cell (train_labels data)) (map cell (arr_flatten trp))) /\
    sheet_rows test_sheet =
      map (fun xy : float32 * float32 => [fst xy; snd xy])
          (combine (map cell (test_labels data)) (map cell (arr_flatten tep))) /\
    length (sheet_rows train_sheet) = length (train_labels data) /\
    length (sheet_rows test_sheet) = length (test_labels data) /\
    length (sheet_rows train_sheet) = arr_len trp /\
    length (sheet_rows test_sheet) = arr_len tep /\
    ((forall batch : list Img,
         exists (k : nat) (rows : list (list float32)),
           forward (params w') false batch = Arr2 k rows /\
           length rows = length batch) ->
     length (sheet_rows train_sheet) = length (train_images data) /\
     length (sheet_rows test_sheet) = length (test_images data)).
Proof.
  intros H w' cell. subst w' cell. apply train_completed, train_ok in H.
  destruct H as (evs & trp & tep & _ & Hrun & Hev & _ & Htr & Hfs & _ & _ & _ & Hf1 & Hf2).
  pose proof Hev as (Hb1 & Hb2 & Hl1 & Hl2 & _).
  assert (Hrows : forall (labels : list float32) (preds : ndarray),
            length labels = length (arr_flatten preds) ->
            length (sheet_rows (report_sheet labels preds (std_val data) (mean_val data)))
            = length labels).
  { intros labels preds Hl. rewrite report_sheet_rows.
    rewrite length_map, length_combine, !length_map. lia. }
  assert (Hlen : forall (images : list Img) (B : Z) (preds : ndarray),
            (forall batch : list Img,
                exists (k : nat) (rows : list (list float32)),
                  forward (params (snd (train_run cfg data w))) false batch = Arr2 k rows /\
                  length rows = length batch) ->
            batched_forward forward (params (snd (train_run cfg data w))) images B
            = Ok preds ->
            arr_len preds = length images).
  { intros images B preds Hone Hb. unfold batched_forward in Hb.
    destruct (Z_le_gt_dec B 0) as [HB|HB].
    - rewrite batches_nonpos in Hb by assumption. discriminate.
    - apply np_vstack_ok in Hb as (a0 & rest & _ & -> & _). cbn [arr_len].
      rewrite <- (batches_concat images B) at 2 by lia.
      induction (batches images B) as [|c l IH]; [reflexivity|].
      cbn [map concat]. rewrite !length_app, IH. f_equal.
      destruct (Hone c) as (k & rows & -> & Hr). exact Hr. }
  exists trp, tep. eexists. eexists.
  split; [exact Hev|]. split; [reflexivity|].
  split; [exact (report_lookup _ _ _ _ _ _ _ Hfs)|].
  split.
  { eexists. split; [exact Htr|].
    cbn [List.filter is_excel]. rewrite List.filter_app.
    rewrite (filter_none is_excel evs); [reflexivity|].
    eapply Forall_impl; [exact (epochs_run_no_files _ _ _ _ _ _ _ _ _ Hrun)|].
    intros ev [_ Hx]. exact Hx. }
  split; [reflexivity|]. split; [reflexivity|].
  split; [apply report_sheet_rows|]. split; [apply report_sheet_rows|].
  rewrite !Hrows by assumption.
  split; [reflexivity|]. split; [reflexivity|].
  split; [exact Hl1|]. split; [exact Hl2|].
  intros Hone. rewrite Hl1, Hl2. split; eapply Hlen; eassumption.
Qed.

(** C10.  For [num_epochs >= 1] the evaluation condition holds at the last
    epoch.  So a completed run ends its loop with the evaluation of epoch
    [num_epochs - 1]: after that evaluation only the closing events follow,
    none of them an optimizer call; the predictions behind its metrics line
    are those of the model as it is at the end of the run, and they are the
    ones written to the report. *)
Theorem train_final_evaluation cfg data w :
  1 <= num_epochs cfg ->
  should_evaluate (num_epochs cfg - 1) (num_epochs cfg) = true /\
  (fst (train_run cfg data w) = Ok tt ->
   let w' := snd (train_run cfg data w) in
   exists (pre : list Event) (trp tep : ndarray),
     trace w' =
       trace w ++ pre ++
       eval_events rmse_value r2_value cfg data (num_epochs cfg - 1) trp tep ++
       closing_events cfg /\
     Forall (fun ev : Event => is_optimizer_event ev = false)
            (eval_events rmse_value r2_value cfg data (num_epochs cfg - 1) trp tep ++
             closing_events cfg) /\
     evaluated forward cfg data (params w') trp tep /\
     fs_files w' !! excel_output cfg = Some (report data trp tep)).
Proof.
  intros Hn. split; [apply should_evaluate_final|].
  intros H w'. subst w'. apply train_completed, train_ok in H.
  destruct H as (evs & trp & tep & _ & _ & Hev & (pre & ->) & Htr & Hfs & _).
  exists (EvPrintDevice :: pre), trp, tep.
  split; [rewrite Htr, <- !app_assoc; reflexivity|].
  split.
  { rewrite Forall_app. split; [apply optimizer_free_eval|].
    unfold closing_events. repeat constructor. }
  split; [exact Hev|]. exact (report_lookup _ _ _ _ _ _ _ Hfs).
Qed.

(** * Further properties of the code *)

(** ** The batched predictor *)

(** X1.  With a batch size of zero or less, [predict_in_batches] raises
    [ValueError] whatever the input ([range] refuses a zero step, and a
    negative step gives no batch, so [np.vstack] gets an empty list); the
    model has been switched to evaluation mode all the same and no forward
    pass was made. *)
Theorem predict_in_batches_nonpositive_batch images B w :
  B <= 0 ->
  fst (predict_in_batches forward images B w) = Raise ValueError /\
  training (snd (predict_in_batches forward images B w)) = false /\
  grad_enabled (snd (predict_in_batches forward images B w)) = grad_enabled w /\
  trace (snd (predict_in_batches forward images B w)) = trace w ++ [EvModelEval].
Proof.
  intros HB. rewrite predict_in_batches_run. unfold predict_events.
  rewrite batches_nonpos by assumption. repeat split.
Qed.

(** X2.  For a batch size B >= 1 on N images, [predict_in_batches] makes
    ceil(N / B) forward passes; pass k sees [min(B, N - k*B)] images, which
    is B for every pass but the last and between 1 and B for the last. *)
Theorem predict_in_batches_passes images B w :
  1 <= B ->
  let b := Z.to_nat B in
  let n := length images in
  let passes := Z.to_nat ((Z.of_nat n + B - 1) / B) in
  trace (snd (predict_in_batches forward images B w)) =
    trace w ++ EvModelEval ::
    map (fun k : nat => EvForward false false (Nat.min b (n - k * b))) (seq 0 passes) /\
  (forall k : nat, (k + 1 < passes)%nat -> Nat.min b (n - k * b) = b) /\
  (forall k : nat, (k + 1 = passes)%nat ->
                   (1 <= Nat.min b (n - k * b) <= b)%nat /\
                   Nat.min b (n - k * b) = (n - k * b)%nat) /\
  (n = 0%nat <-> passes = 0%nat) /\
  (passes * b < n + b)%nat /\ (n <= passes * b)%nat.
Proof.
  intros HB b n passes.
  assert (H0 : 0 <= (Z.of_nat n + B - 1) / B) by (apply Z.div_pos; lia).
  pose proof (Z.mod_pos_bound (Z.of_nat n + B - 1) B ltac:(lia)) as Hm.
  pose proof (Z.div_mod (Z.of_nat n + B - 1) B ltac:(lia)) as Hd.
  assert (Hb : Z.of_nat b = B) by (subst b; lia).
  assert (Hp : Z.of_nat passes = (Z.of_nat n + B - 1) / B) by (subst passes; lia).
  assert (Hlo : (n <= passes * b)%nat) by nia.
  assert (Hhi : (passes * b < n + b)%nat) by nia.
  split.
  { rewrite predict_in_batches_run. cbn [snd log_events trace]. unfold predict_events.
    rewrite batches_nat by assumption. rewrite map_map.
    do 2 f_equal. apply map_ext. intros k.
    rewrite length_firstn, length_skipn. reflexivity. }
  split; [intros k Hk; nia|].
  split; [intros k Hk; nia|].
  split; [split; intros; nia|].
  split; assumption.
Qed.

(** X3.  When the batch size is at least the number of images (and there is
    at least one image), the call is a single forward pass on the whole input
    and returns [np.vstack] of its one output: the output as it is when it is
    two-dimensional, and a single row holding it when it is one-dimensional,
    for any model. *)
Theorem predict_in_batches_single_batch images B w :
  images <> [] ->
  Z.of_nat (length images) <= B ->
  let out := forward (params w) false images in
  fst (predict_in_batches forward images B w) = np_vstack [out] /\
  (forall (k : nat) (rows : list (list float32)),
      out = Arr2 k rows -> fst (predict_in_batches forward images B w) = Ok out) /\
  (forall v : list float32,
      out = Arr1 v ->
      fst (predict_in_batches forward images B w) = Ok (Arr2 (length v) [v])) /\
  trace (snd (predict_in_batches forward images B w)) =
    trace w ++ [EvModelEval; EvForward false false (length images)].
Proof.
  intros Hne HB out.
  assert (Hlen : (0 < length images)%nat) by (destruct images; [congruence | simpl; lia]).
  assert (Hb : batches images B = [images]).
  { rewrite batches_nat by lia.
    replace ((Z.of_nat (length images) + B - 1) / B) with 1.
    - change (Z.to_nat 1) with 1%nat. cbn [seq map].
      change (0 * Z.to_nat B)%nat with 0%nat.
      change (skipn 0 images) with images.
      rewrite firstn_all2 by lia. reflexivity.
    - apply Z.div_unique with (r := Z.of_nat (length images) - 1); lia. }
  rewrite predict_in_batches_run. unfold predict_events. rewrite Hb.
  cbn [map fst snd log_events trace]. fold out.
  split; [reflexivity|]. split; [|split; [|reflexivity]].
  - intros k rows ->. cbn. rewrite app_nil_r. reflexivity.
  - intros v ->. reflexivity.
Qed.

(** X4.  For a model whose output is two-dimensional with a fixed number of
    columns and one row per image, [predict_in_batches] on N >= 1 images with
    a batch size B >= 1 returns an array of N rows with that number of
    columns, also when the rows depend on how the images are batched. *)
Theorem predict_in_batches_output_count (k : nat) images B w :
  (forall batch : list Img,
      exists rows : list (list float32),
        forward (params w) false batch = Arr2 k rows /\ length rows = length batch) ->
  images <> [] ->
  1 <= B ->
  exists rows : list (list float32),
    fst (predict_in_batches forward images B w) = Ok (Arr2 k rows) /\
    length rows = length images.
Proof.
  intros Hone Hne HB. rewrite predict_in_batches_run. cbn [fst].
  pose proof (batches_nonempty images B HB Hne) as Hb.
  pose proof (batches_concat images B HB) as Hc.
  exists (concat (map arr_rows (map (forward (params w) false) (batches images B)))).
  split.
  - apply np_vstack_width.
    + destruct (batches images B); [congruence | discriminate].
    + apply Forall_map, Forall_forall. intros c _.
      destruct (Hone c) as (rows & -> & _). reflexivity.
  - rewrite <- Hc at 2. clear Hb Hc.
    induction (batches images B) as [|c l IH]; [reflexivity|].
    cbn [map concat]. rewrite !length_app, IH. f_equal.
    destruct (Hone c) as (rows & -> & Hr). exact Hr.
Qed.



(** X5.  What [predict_in_batches] returns depends on the world only through
    the model's parameters: not on the mode the model was in, the gradient
    flag or the files.  So a second call, after any other call of
    [predict_in_batches], returns what it would have returned before. *)
Theorem predict_in_batches_repeatable images B w1 w2 :
  params w1 = params w2 ->
  fst (predict_in_batches forward images B w1) =
  fst (predict_in_batches forward images B w2) /\
  (forall (images' : list Img) (B' : Z),
      fst (predict_in_batches forward images B
             (snd (predict_in_batches forward images' B' w1))) =
      fst (predict_in_batches forward images B w2)).
Proof.
  intros Hp. split.
  - rewrite !predict_in_batches_run. cbn [fst]. rewrite Hp. reflexivity.
  - intros images' B'. rewrite !predict_in_batches_run. cbn [fst snd]. 
    cbn [log_events set_training params]. rewrite Hp. reflexivity.
Qed.

(** ** The training driver: every run *)

Lemma train_unfold cfg data w :
  train_run cfg data w =
  bind (epochs_loop forward adam_update rmse_value r2_value cfg data
                    (py_range (num_epochs cfg)) (mkLocals None None))
       (report_and_save cfg data)
       (loop_start init_params init_opt_state cfg w).
Proof. reflexivity. Qed.

(** Whatever its outcome, the evaluation step changes neither the model nor
    the files, and the only exception it raises is [ValueError]. *)
Lemma evaluate_frame cfg data e w (r : result Locals) w1 :
  evaluate forward rmse_value r2_value cfg data e w = (r, w1) ->
  params w1 = params w /\ opt_state w1 = opt_state w /\
  grad_enabled w1 = grad_enabled w /\
  fs_dirs w1 = fs_dirs w /\ fs_files w1 = fs_files w /\
  training w1 = false /\
  match r with Ok _ => True | Raise ex => ex = ValueError end.
Proof.
  unfold evaluate, bind. rewrite predict_in_batches_run.
  destruct (np_vstack (map (forward (params w) false)
              (batches (train_images data) (train_batch_size cfg))))
    as [trp|ex1] eqn:E1.
  2:{ apply np_vstack_raises in E1 as ->. cbv beta iota.
      intros H; injection H as <- <-; repeat split. }
  cbv beta iota. rewrite predict_in_batches_run.
  cbn [params log_events set_training].
  destruct (np_vstack (map (forward (params w) false)
              (batches (test_images data) (test_batch_size cfg))))
    as [tep|ex2] eqn:E2.
  2:{ apply np_vstack_raises in E2 as ->. cbv beta iota.
      intros H; injection H as <- <-; repeat split. }
  cbv beta iota.
  unfold sk_metric, ret, raise, log.
  destruct ((length (train_labels data) =? _)%nat && _);
    [|intros H; injection H as <- <-; repeat split].
  destruct ((length (test_labels data) =? _)%nat && _);
    intros H; injection H as <- <-; repeat split.
Qed.

Lemma epoch_body_frame cfg data e loc w (r : result Locals) w1 :
  epoch_body forward adam_update rmse_value r2_value cfg data e loc w = (r, w1) ->
  params w1 = fst (fit_batches adam_update (params w, opt_state w) (train_loader data e)) /\
  opt_state w1 = snd (fit_batches adam_update (params w, opt_state w) (train_loader data e)) /\
  grad_enabled w1 = grad_enabled w /\
  fs_dirs w1 = fs_dirs w /\ fs_files w1 = fs_files w /\
  training w1 = negb (should_evaluate e (num_epochs cfg)) /\
  match r with Ok _ => True | Raise ex => ex = ValueError end.
Proof.
  unfold epoch_body, bind at 1. unfold model_train.
  unfold bind. rewrite for_each_train_run. cbn [params opt_state set_training log_events].
  destruct (should_evaluate e (num_epochs cfg)) eqn:Hs.
  - intros H. apply evaluate_frame in H as (Hp & Ho & Hg & Hd & Hf & Ht & Hr).
    rewrite Hp, Ho, Hg, Hd, Hf, Ht. repeat split. exact Hr.
  - unfold ret. intros H. injection H as <- <-. repeat split.
Qed.

Lemma epochs_loop_frame cfg data : forall (es : list Z) loc w (r : result Locals) w1,
  epochs_loop forward adam_update rmse_value r2_value cfg data es loc w = (r, w1) ->
  grad_enabled w1 = grad_enabled w /\
  fs_dirs w1 = fs_dirs w /\ fs_files w1 = fs_files w /\
  match r with Ok _ => True | Raise ex => ex = ValueError end.
Proof.
  induction es as [|e es IH]; intros loc w r w1 H.
  - injection H as <- <-. repeat split.
  - cbn [epochs_loop] in H. unfold bind in H.
    destruct (epoch_body _ _ _ _ cfg data e loc w) as [[loc1|ex] w2] eqn:E.
    + apply epoch_body_frame in E as (_ & _ & Hg & Hd & Hf & _).
      apply IH in H as (Hg' & Hd' & Hf' & Hr).
      repeat split; solve [congruence | exact Hr].
    + injection H as <- <-.
      apply epoch_body_frame in E as (_ & _ & Hg & Hd & Hf & _ & Hr).
      repeat split; assumption.
Qed.

(** What follows the loop leaves the model alone; if it raises, it raises
    [UnboundLocalError] only for an unbound local, and the only file it can
    have changed is the report. *)
Lemma report_and_save_frame cfg data loc w1 (r : result unit) w' :
  report_and_save cfg data loc w1 = (r, w') ->
  params w' = params w1 /\ opt_state w' = opt_state w1 /\
  training w' = training w1 /\ grad_enabled w' = grad_enabled w1 /\
  (forall p : string, p <> excel_output cfg -> p <> model_save_path cfg ->
                      fs_files w' !! p = fs_files w1 !! p) /\
  match r with
  | Ok _ => True
  | Raise ex =>
      fs_files w' !! model_save_path cfg = fs_files w1 !! model_save_path cfg /\
      (ex = UnboundLocalError -> train_preds loc = None \/ test_preds loc = None)
  end.
Proof.
  unfold report_and_save, bind, read_local, ret, raise, lift.
  destruct (train_preds loc) as [trp|];
    [|intros H; injection H as <- <-; repeat split; auto].
  destruct (test_preds loc) as [tep|];
    [|intros H; injection H as <- <-; repeat split; auto].
  destruct (pd_DataFrame _ _ _ (arr_flatten (denormalize trp _ _))) as [df1|ex1] eqn:E1.
  2:{ unfold pd_DataFrame in E1. destruct (_ =? _)%nat; [discriminate|].
      injection E1 as <-. intros H; injection H as <- <-. repeat split. discriminate. }
  destruct (pd_DataFrame _ _ _ (arr_flatten (denormalize tep _ _))) as [df2|ex2] eqn:E2.
  2:{ unfold pd_DataFrame in E2. destruct (_ =? _)%nat; [discriminate|].
      injection E2 as <-. intros H; injection H as <- <-. repeat split. discriminate. }
  unfold write_file at 1.
  destruct (decide (excel_output cfg ∈ fs_dirs w1)) as [|_];
    [intros H; injection H as <- <-; repeat split; discriminate|].
  unfold log at 1. unfold os_makedirs_exist_ok.
  cbn [fs_files fs_dirs set_fs log_events].
  assert (Hx : forall (f : @File Params) (p : string), p <> excel_output cfg ->
             <[excel_output cfg := f]> (fs_files w1) !! p = fs_files w1 !! p)
    by (intros f p Hp; apply lookup_insert_ne, not_eq_sym, Hp).
  assert (Hc : forall f : @File Params,
             <[excel_output cfg := f]> (fs_files w1) !! model_save_path cfg =
             fs_files w1 !! model_save_path cfg)
    by (intros f; apply Hx, not_eq_sym, excel_output_ne_model_save_path).
  destruct (decide (model_dir cfg = EmptyString)) as [|_];
    [intros H; injection H as <- <-; cbn; repeat split; auto; discriminate|].
  destruct (_ !! model_dir cfg);
    [intros H; injection H as <- <-; cbn; repeat split; auto; discriminate|].
  unfold torch_save, bind, write_file. cbn [fs_files fs_dirs set_fs log_events params].
  destruct (decide (model_save_path cfg ∈ _)) as [|_];
    intros H; injection H as <- <-; cbn; repeat split; auto; try discriminate.
  intros p Hp1 Hp2. rewrite lookup_insert_ne by (apply not_eq_sym, Hp2). apply Hx, Hp1.
Qed.

Lemma py_range_cons (n : Z) : 1 <= n -> exists rest : list Z, py_range n = 0 :: rest.
Proof.
  intros Hn. unfold py_range.
  replace (Z.to_nat n) with (S (Z.to_nat (n - 1))) by lia.
  eexists. reflexivity.
Qed.





(** X14.  [train] raises [UnboundLocalError] exactly when [num_epochs <= 0]:
    with at least one epoch, a failure is of another kind. *)
Theorem train_unbound_iff cfg data w :
  fst (train_run cfg data w) = Raise UnboundLocalError <-> num_epochs cfg <= 0.
Proof.
  split.
  - intros H. destruct (Z_le_gt_dec (num_epochs cfg) 0) as [Hn|Hn]; [exact Hn|].
    exfalso. revert H. rewrite train_unfold. unfold bind.
    destruct (epochs_loop _ _ _ _ cfg data _ _ _) as [[loc|ex1] w1] eqn:E.
    + apply epochs_loop_ok in E as (evs & Hrun & _).
      destruct (epochs_run_last cfg data _ _ _ _ _ _ _ (num_epochs cfg - 1) Hrun)
        as (pre & trp & tep & _ & -> & _);
        [apply py_range_last; lia | apply should_evaluate_final|].
      destruct (report_and_save _ _ _ w1) as [r w2] eqn:E2. cbn [fst]. intros ->.
      apply report_and_save_frame in E2 as (_ & _ & _ & _ & _ & _ & Hu).
      destruct (Hu eq_refl); discriminate.
    + apply epochs_loop_frame in E as (_ & _ & _ & ->). discriminate.
  - intros Hn. unfold train. rewrite py_range_nonpos by assumption. reflexivity.
Qed.

(** ** The training driver: runs that get through the loop *)

Lemma model_save_path_ne_model_dir cfg : model_save_path cfg <> model_dir cfg.
Proof.
  unfold model_save_path. rewrite os_path_join_relative by reflexivity.
  intros H. apply (f_equal list_ascii_of_string) in H.
  rewrite !list_ascii_of_string_append in H.
  apply (f_equal (@length ascii)) in H. rewrite !length_app in H.
  cbn [list_ascii_of_string length] in H. lia.
Qed.

Section Usable.

Variables (cfg : Config) (data : @Dataset Img).

(** The splits are not empty, the batch sizes are positive, there is one
    label per image and the model returns, for a batch of [n] images, an
    array of shape [(n, 1)]: one output per image. *)
Hypothesis train_split : train_images data <> [].
Hypothesis test_split : test_images data <> [].
Hypothesis train_batch : 1 <= train_batch_size cfg.
Hypothesis test_batch : 1 <= test_batch_size cfg.
Hypothesis train_labelled : length (train_labels data) = length (train_images data).
Hypothesis test_labelled : length (test_labels data) = length (test_images data).
Hypothesis one_output_per_image :
  forall (p : Params) (batch : list Img),
    exists vs : list float32,
      length vs = length batch /\
      forward p false batch = Arr2 1 (map (fun v : float32 => [v]) vs).







End Usable.

(** ** The training driver: completed runs *)

Lemma epochs_run_fit cfg data (g : bool) po loc es evs po' loc' :
  epochs_run forward adam_update rmse_value r2_value cfg data g po loc es evs po' loc' ->
  po' = fit_epochs adam_update data po es.
Proof.
  induction 1 as [| po loc e rest evs po' loc' _ _ IH
                  | po loc e rest evs po' loc' trp tep _ _ _ IH];
    [reflexivity | exact IH | exact IH].
Qed.

Lemma training_events_no_eval (g : bool) (bs : list (list Img * list float32)) :
  List.filter (fun ev : Event => negb (is_eval_event ev)) (training_events g bs) =
  training_events g bs.
Proof.
  unfold training_events. cbn [List.filter is_eval_event negb]. f_equal.
  induction bs as [|b bs IH]; [reflexivity|].
  cbn [flat_map app List.filter is_eval_event negb]. rewrite IH. reflexivity.
Qed.

Lemma predict_events_all_eval images B :
  List.filter (fun ev : Event => negb (is_eval_event ev)) (predict_events images B) = [].
Proof.
  unfold predict_events. cbn [List.filter is_eval_event negb].
  induction (batches images B) as [|c l IH]; [reflexivity | exact IH].
Qed.

Lemma eval_events_all_eval cfg data e trp tep :
  List.filter (fun ev : Event => negb (is_eval_event ev))
              (eval_events rmse_value r2_value cfg data e trp tep) = [].
Proof.
  unfold eval_events. rewrite !List.filter_app, !predict_events_all_eval. reflexivity.
Qed.

Lemma epochs_run_training cfg data (g : bool) po loc es evs po' loc' :
  epochs_run forward adam_update rmse_value r2_value cfg data g po loc es evs po' loc' ->
  List.filter (fun ev : Event => negb (is_eval_event ev)) evs =
  flat_map (fun e : Z => training_events g (train_loader data e)) es.
Proof.
  induction 1 as [| po loc e rest evs po' loc' _ _ IH
                  | po loc e rest evs po' loc' trp tep _ _ _ IH].
  - reflexivity.
  - cbn [flat_map]. rewrite List.filter_app, training_events_no_eval, IH. reflexivity.
  - cbn [flat_map].
    rewrite !List.filter_app, training_events_no_eval, eval_events_all_eval, IH.
    reflexivity.
Qed.

Lemma epochs_loop_mode cfg data : forall (es : list Z) loc w loc' w' (e : Z),
  epochs_loop forward adam_update rmse_value r2_value cfg data es loc w = (Ok loc', w') ->
  last es = Some e ->
  training w' = negb (should_evaluate e (num_epochs cfg)).
Proof.
  induction es as [|e0 es IH]; intros loc w loc' w' e H Hlast; [discriminate|].
  cbn [epochs_loop] in H. unfold bind in H.
  destruct (epoch_body _ _ _ _ cfg data e0 loc w) as [[loc1|ex] w1] eqn:E; [|discriminate].
  destruct es as [|e1 es].
  - injection Hlast as ->. injection H as <- <-.
    apply epoch_body_frame in E as (_ & _ & _ & _ & _ & Ht & _). exact Ht.
  - rewrite last_cons_cons in Hlast. exact (IH _ _ _ _ _ H Hlast).
Qed.

(** X10.  The parameters (and optimizer state) at the end of a completed run,
    which are the ones saved in the checkpoint, are those obtained by
    applying the optimizer step to the mini-batches of the epochs
    [0 .. num_epochs - 1] in order, starting from the fresh model: the
    evaluation steps in between have no influence on them. *)
Theorem train_final_parameters cfg data w :
  fst (train_run cfg data w) = Ok tt ->
  let w' := snd (train_run cfg data w) in
  (params w', opt_state w') =
    fit_epochs adam_update data (init_params, init_opt_state (lr cfg))
               (py_range (num_epochs cfg)) /\
  fs_files w' !! model_save_path cfg =
    Some (Checkpoint
            (fst (fit_epochs adam_update data (init_params, init_opt_state (lr cfg))
                             (py_range (num_epochs cfg))))
            (mean_val data) (std_val data)).
Proof.
  intros H w'. subst w'. apply train_completed, train_ok in H.
  destruct H as (evs & trp & tep & _ & Hrun & _ & _ & _ & Hfs & _).
  apply epochs_run_fit in Hrun. split; [exact Hrun|].
  rewrite Hfs, lookup_insert_eq, <- Hrun. reflexivity.
Qed.

(** X11.  In a completed run the events that are not part of an evaluation
    step are, after the device line and before the closing events, exactly
    the training phases of the epochs in order: per epoch one
    [model.train()], then per mini-batch [zero_grad], one forward pass in
    training mode, one backward pass and one optimizer step. *)
Theorem train_training_events cfg data w :
  fst (train_run cfg data w) = Ok tt ->
  exists evs : list Event,
    trace (snd (train_run cfg data w)) =
      trace w ++ EvPrintDevice :: evs ++ closing_events cfg /\
    List.filter (fun ev : Event => negb (is_eval_event ev)) evs =
    flat_map (fun e : Z =>
                EvModelTrain ::
                flat_map (fun b : list Img * list float32 =>
                            [EvZeroGrad; EvForward true (grad_enabled w) (length (fst b));
                             EvBackward; EvStep])
                         (train_loader data e))
             (py_range (num_epochs cfg)).
Proof.
  intros H. apply train_completed, train_ok in H.
  destruct H as (evs & trp & tep & _ & Hrun & _ & _ & Htr & _).
  exists evs. split; [exact Htr|]. exact (epochs_run_training _ _ _ _ _ _ _ _ _ Hrun).
Qed.

(** X12.  A completed run of [train] leaves the model in evaluation mode (the
    last thing the loop does is an evaluation step) and the gradient flag as
    it found it. *)
Theorem train_leaves_eval_mode cfg data w :
  fst (train_run cfg data w) = Ok tt ->
  training (snd (train_run cfg data w)) = false /\
  grad_enabled (snd (train_run cfg data w)) = grad_enabled w.
Proof.
  intros H. pose proof H as H0. apply train_completed, train_ok in H0.
  destruct H0 as (_ & _ & _ & Hn & _ & _ & _ & _ & _ & _ & _ & Hg & _).
  split; [|exact Hg].
  revert H. rewrite train_unfold. unfold bind.
  destruct (epochs_loop _ _ _ _ cfg data _ _ _) as [[loc|ex] w1] eqn:E; [|discriminate].
  apply (epochs_loop_mode _ _ _ _ _ _ _ (num_epochs cfg - 1)) in E;
    [|apply py_range_last; lia].
  rewrite should_evaluate_final in E.
  destruct (report_and_save cfg data loc w1) as [r w2] eqn:E2. cbn [fst snd]. intros _.
  apply report_and_save_frame in E2 as (_ & _ & Ht & _). rewrite Ht. exact E.
Qed.

(** X13.  In a completed run no epoch is evaluated twice (the last epoch is
    evaluated once also when it is a multiple of 5), the first metrics line
    is that of epoch 0 and the last that of epoch [num_epochs - 1]. *)
Theorem train_metrics_lines cfg data w :
  fst (train_run cfg data w) = Ok tt ->
  exists evs : list Event,
    trace (snd (train_run cfg data w)) =
      trace w ++ EvPrintDevice :: evs ++ closing_events cfg /\
    List.NoDup (logged_epochs evs) /\
    head (logged_epochs evs) = Some 0 /\
    last (logged_epochs evs) = Some (num_epochs cfg - 1).
Proof.
  intros H. apply train_completed, train_ok in H.
  destruct H as (evs & trp & tep & Hn & Hrun & _ & _ & Htr & _).
  exists evs. split; [exact Htr|].
  rewrite (epochs_run_logged _ _ _ _ _ _ _ _ _ Hrun).
  split; [|split].
  - apply List.NoDup_filter. unfold py_range.
    apply Finite.Injective_map_NoDup; [|apply List.seq_NoDup].
    intros a b Hab. lia.
  - destruct (py_range_cons _ Hn) as (rest & ->). reflexivity.
  - unfold py_range.
    replace (Z.to_nat (num_epochs cfg)) with (S (Z.to_nat (num_epochs cfg - 1))) by lia.
    rewrite seq_S, map_app, List.filter_app. cbn [map List.filter].
    replace (Z.of_nat (0 + Z.to_nat (num_epochs cfg - 1))) with (num_epochs cfg - 1) by lia.
    rewrite should_evaluate_final, last_snoc. reflexivity.
Qed.

End Proofs.

(** * The claims on the concrete instance *)

(** C1, as stated, fails for a model whose output depends on the batch it is
    given: on three images with batch size 2 the batches have sizes 2 and 1,
    so [count_forward] answers 2, 2, 1 in batches and 3, 3, 3 on the whole
    input. *)
Lemma predict_in_batches_batch_dependent_model :
  fst (predict_in_batches Demo.count_forward [1; 2; 3] 2 Demo.world) =
    Ok (Arr2 1 [[f32_of_Z 2]; [f32_of_Z 2]; [f32_of_Z 1]]) /\
  Demo.count_forward (params Demo.world) false [1; 2; 3] =
    Arr2 1 [[f32_of_Z 3]; [f32_of_Z 3]; [f32_of_Z 3]] /\
  fst (predict_in_batches Demo.count_forward [1; 2; 3] 2 Demo.world) <>
  Ok (Demo.count_forward (params Demo.world) false [1; 2; 3]).
Proof.
  split; [reflexivity|]. split; [reflexivity|]. discriminate.
Qed.

(** C1, as amended, on the one-weight model: three images in batches of two. *)
Lemma predict_in_batches_whole_input_witness :
  (forall batch : list Z,
      Demo.forward (params Demo.world) false batch =
      Arr2 1 (map (fun x : Z => [f32_mul (f32_of_Z 3) (f32_of_Z x)]) batch)) /\
  [1; 2; 3] <> @nil Z /\
  1 <= 2 /\
  fst (predict_in_batches Demo.forward [1; 2; 3] 2 Demo.world) =
    Ok (Demo.forward (params Demo.world) false [1; 2; 3]) /\
  fst (predict_in_batches Demo.forward [1; 2; 3] 2 Demo.world) =
    Ok (Arr2 1 [[f32_of_Z 3]; [f32_of_Z 6]; [f32_of_Z 9]]).
Proof.
  assert (H1 : forall batch : list Z,
             Demo.forward (params Demo.world) false batch =
             Arr2 1 (map (fun x : Z => [f32_mul (f32_of_Z 3) (f32_of_Z x)]) batch))
    by (intros batch; reflexivity).
  assert (H2 : [1; 2; 3] <> @nil Z) by discriminate.
  assert (H3 : 1 <= 2) by lia.
  split; [exact H1|]. split; [exact H2|]. split; [exact H3|].
  destruct (predict_in_batches_whole_input Demo.forward 1
              (fun x : Z => [f32_mul (f32_of_Z 3) (f32_of_Z x)]) [1; 2; 3] 2
              Demo.world H1 H2 H3) as (Hr & _ & _ & _ & Hrows & _).
  split; [exact Hr | exact Hrows].
Defined.

(** C3 on a run of seven epochs with two mini-batches each: the metrics line
    is printed for the epochs 0, 5 and 6, after 1, 6 and 7 epochs have been
    started and 2, 12 and 14 optimizer steps taken. *)
Lemma train_evaluation_schedule_witness :
  fst (Demo.run_train Demo.cfg) = Ok tt /\
  exists evs : list (@Event float32),
    trace (snd (Demo.run_train Demo.cfg)) =
      trace Demo.world ++ EvPrintDevice :: evs ++ closing_events Demo.cfg /\
    logged_epochs evs = [0; 5; 6] /\
    metrics_log 0 0 evs = [(0, 1%nat, 2%nat); (5, 6%nat, 12%nat); (6, 7%nat, 14%nat)].
Proof.
  assert (H : fst (Demo.run_train Demo.cfg) = Ok tt) by (vm_compute; reflexivity).
  split; [exact H|].
  destruct (train_evaluation_schedule Demo.forward Demo.init_params Demo.init_opt_state
              Demo.adam_update Demo.rmse_value Demo.r2_value Demo.cfg Demo.data
              Demo.world H) as (evs & po' & loc' & Htr & _ & Hlog & _ & Hm).
  exists evs. split; [exact Htr|]. split; [exact Hlog | exact Hm].
Defined.

(** C4 on a configuration with no epoch. *)
Lemma train_without_evaluation_witness :
  (forall e : Z, 0 <= e < num_epochs Demo.cfg_no_epochs ->
                 should_evaluate e (num_epochs Demo.cfg_no_epochs) = false) /\
  fst (Demo.run_train Demo.cfg_no_epochs) = Raise UnboundLocalError /\
  fs_files (snd (Demo.run_train Demo.cfg_no_epochs)) = fs_files Demo.world.
Proof.
  assert (H : forall e : Z, 0 <= e < num_epochs Demo.cfg_no_epochs ->
                should_evaluate e (num_epochs Demo.cfg_no_epochs) = false)
    by (simpl; intros e He; lia).
  split; [exact H|].
  destruct (train_without_evaluation Demo.forward Demo.init_params Demo.init_opt_state
              Demo.adam_update Demo.rmse_value Demo.r2_value Demo.cfg_no_epochs
              Demo.data Demo.world H) as (_ & Hr & _ & Hf & _).
  split; [exact Hr | exact Hf].
Defined.




(** C7 on the seven-epoch run, with [std = 2] and [mean = 10]: the final
    model has the weight 15, so the three training samples, with the labels
    1, 2, 3, have the predictions 15, 30, 45 and the rows (12, 40), (14, 70),
    (16, 100); the test sample, with the label 4, has the row (18, 130). *)
Lemma train_report_witness :
  fst (Demo.run_train Demo.cfg) = Ok tt /\
  excel_output Demo.cfg = "predictions_vs_actual_col3.xlsx"%string /\
  exists train_sheet test_sheet : Sheet,
    fs_files (snd (Demo.run_train Demo.cfg)) !! excel_output Demo.cfg =
      Some (Workbook [("Train"%string, train_sheet); ("Test"%string, test_sheet)]) /\
    sheet_header train_sheet = ["True"%string; "Predicted"%string] /\
    sheet_header test_sheet = ["True"%string; "Predicted"%string] /\
    sheet_rows train_sheet =
      [[f32_of_Z 12; f32_of_Z 40]; [f32_of_Z 14; f32_of_Z 70];
       [f32_of_Z 16; f32_of_Z 100]] /\
    sheet_rows test_sheet = [[f32_of_Z 18; f32_of_Z 130]].
Proof.
  assert (H : fst (Demo.run_train Demo.cfg) = Ok tt) by (vm_compute; reflexivity).
  split; [exact H|]. split; [reflexivity|].
  destruct (train_report Demo.forward Demo.init_params Demo.init_opt_state
              Demo.adam_update Demo.rmse_value Demo.r2_value Demo.cfg Demo.data
              Demo.world H)
    as (trp & tep & s1 & s2 & (Htrp & Htep & _) & _ & Hfile & _ & Hh1 & Hh2 & Hr1 & Hr2 & _).
  assert (E1 : trp = Arr2 1 [[f32_of_Z 15]; [f32_of_Z 30]; [f32_of_Z 45]])
    by (vm_compute in Htrp; injection Htrp as <-; vm_compute; reflexivity).
  assert (E2 : tep = Arr2 1 [[f32_of_Z 60]])
    by (vm_compute in Htep; injection Htep as <-; vm_compute; reflexivity).
  exists s1, s2.
  split; [exact Hfile|]. split; [exact Hh1|]. split; [exact Hh2|].
  split; [rewrite Hr1, E1 | rewrite Hr2, E2]; vm_compute; reflexivity.
Defined.

(** C10 on the seven-epoch run: epoch 6 is evaluated although 6 is not a
    multiple of 5, and the run ends with that evaluation. *)
Lemma train_final_evaluation_witness :
  1 <= num_epochs Demo.cfg /\
  should_evaluate 6 7 = true /\
  fst (Demo.run_train Demo.cfg) = Ok tt /\
  exists (pre : list (@Event float32)) (trp tep : ndarray),
    trace (snd (Demo.run_train Demo.cfg)) =
      trace Demo.world ++ pre ++
      eval_events Demo.rmse_value Demo.r2_value Demo.cfg Demo.data 6 trp tep ++
      closing_events Demo.cfg /\
    evaluated Demo.forward Demo.cfg Demo.data
              (params (snd (Demo.run_train Demo.cfg))) trp tep.
Proof.
  assert (Hn : 1 <= num_epochs Demo.cfg) by (simpl; lia).
  assert (H : fst (Demo.run_train Demo.cfg) = Ok tt) by (vm_compute; reflexivity).
  split; [exact Hn|].
  destruct (train_final_evaluation Demo.forward Demo.init_params Demo.init_opt_state
              Demo.adam_update Demo.rmse_value Demo.r2_value Demo.cfg Demo.data
              Demo.world Hn) as (Hs & Hrun).
  split; [exact Hs|]. split; [exact H|].
  destruct (Hrun H) as (pre & trp & tep & Htr & _ & Hev & _).
  exists pre, trp, tep. split; [exact Htr | exact Hev].
Defined.

(** * The further properties on the concrete instance *)

(** X1 with a batch size of zero. *)
Lemma predict_in_batches_nonpositive_batch_witness :
  0 <= 0 /\
  fst (predict_in_batches Demo.forward [1; 2; 3] 0 Demo.world) = Raise ValueError /\
  training (snd (predict_in_batches Demo.forward [1; 2; 3] 0 Demo.world)) = false.
Proof.
  assert (H : 0 <= 0) by lia. split; [exact H|].
  destruct (predict_in_batches_nonpositive_batch Demo.forward [1; 2; 3] 0 Demo.world H)
    as (Hr & Ht & _).
  split; [exact Hr | exact Ht].
Defined.

(** X2 on seven images in batches of three: passes of 3, 3 and 1 images. *)
Lemma predict_in_batches_passes_witness :
  1 <= 3 /\
  trace (snd (predict_in_batches Demo.forward [1; 2; 3; 4; 5; 6; 7] 3 Demo.world)) =
  [EvModelEval; EvForward false false 3; EvForward false false 3; EvForward false false 1].
Proof.
  assert (H : 1 <= 3) by lia. split; [exact H|].
  exact (proj1 (predict_in_batches_passes Demo.forward [1; 2; 3; 4; 5; 6; 7] 3
                  Demo.world H)).
Defined.

(** X3 on the batch-dependent model, whose output is two-dimensional, and on
    the one-weight model with a flat output: with a batch size of 5 the three
    images go through in one pass. *)
Lemma predict_in_batches_single_batch_witness :
  [1; 2; 3] <> @nil Z /\
  Z.of_nat (length [1; 2; 3]) <= 5 /\
  fst (predict_in_batches Demo.count_forward [1; 2; 3] 5 Demo.world) =
    Ok (Arr2 1 [[f32_of_Z 3]; [f32_of_Z 3]; [f32_of_Z 3]]) /\
  fst (predict_in_batches Demo.flat_forward [1; 2; 3] 5 Demo.world) =
    Ok (Arr2 3 [[f32_of_Z 3; f32_of_Z 6; f32_of_Z 9]]).
Proof.
  assert (H1 : [1; 2; 3] <> @nil Z) by discriminate.
  assert (H2 : Z.of_nat (length [1; 2; 3]) <= 5) by (simpl; lia).
  split; [exact H1|]. split; [exact H2|]. split.
  - destruct (predict_in_batches_single_batch Demo.count_forward [1; 2; 3] 5
                Demo.world H1 H2) as (_ & H2d & _).
    exact (H2d 1%nat [[f32_of_Z 3]; [f32_of_Z 3]; [f32_of_Z 3]] eq_refl).
  - destruct (predict_in_batches_single_batch Demo.flat_forward [1; 2; 3] 5
                Demo.world H1 H2) as (_ & _ & H1d & _).
    exact (H1d [f32_of_Z 3; f32_of_Z 6; f32_of_Z 9] eq_refl).
Defined.

(** X4 on the batch-dependent model. *)
Lemma predict_in_batches_output_count_witness :
  (forall batch : list Z,
      exists rows : list (list float32),
        Demo.count_forward (params Demo.world) false batch = Arr2 1 rows /\
        length rows = length batch) /\
  [1; 2; 3] <> @nil Z /\
  1 <= 2 /\
  exists rows : list (list float32),
    fst (predict_in_batches Demo.count_forward [1; 2; 3] 2 Demo.world) = Ok (Arr2 1 rows) /\
    length rows = 3%nat.
Proof.
  assert (H1 : forall batch : list Z,
             exists rows : list (list float32),
               Demo.count_forward (params Demo.world) false batch = Arr2 1 rows /\
               length rows = length batch)
    by (intros batch; eexists; split; [reflexivity | apply length_map]).
  assert (H2 : [1; 2; 3] <> @nil Z) by discriminate.
  assert (H3 : 1 <= 2) by lia.
  split; [exact H1|]. split; [exact H2|]. split; [exact H3|].
  exact (predict_in_batches_output_count Demo.count_forward 1 [1; 2; 3] 2 Demo.world
           H1 H2 H3).
Defined.


(** X5: the model's mode before the call does not matter. *)
Lemma predict_in_batches_repeatable_witness :
  params (set_training false Demo.world) = params Demo.world /\
  fst (predict_in_batches Demo.forward [1; 2; 3] 2 (set_training false Demo.world)) =
  fst (predict_in_batches Demo.forward [1; 2; 3] 2 Demo.world).
Proof.
  assert (H : params (set_training false Demo.world) = params Demo.world)
    by reflexivity.
  split; [exact H|].
  exact (proj1 (predict_in_batches_repeatable Demo.forward [1; 2; 3] 2
                  (set_training false Demo.world) Demo.world H)).
Defined.




(** X10 on the seven-epoch run: fourteen optimizer steps from the weight 1. *)
Lemma train_final_parameters_witness :
  fst (Demo.run_train Demo.cfg) = Ok tt /\
  (params (snd (Demo.run_train Demo.cfg)), opt_state (snd (Demo.run_train Demo.cfg))) =
  fit_epochs Demo.adam_update Demo.data (Demo.init_params, Demo.init_opt_state (lr Demo.cfg))
             (py_range 7).
Proof.
  assert (H : fst (Demo.run_train Demo.cfg) = Ok tt) by (vm_compute; reflexivity).
  split; [exact H|].
  exact (proj1 (train_final_parameters Demo.forward Demo.init_params Demo.init_opt_state
                  Demo.adam_update Demo.rmse_value Demo.r2_value Demo.cfg Demo.data
                  Demo.world H)).
Defined.

(** X11 on the seven-epoch run. *)
Lemma train_training_events_witness :
  fst (Demo.run_train Demo.cfg) = Ok tt /\
  exists evs : list (@Event float32),
    trace (snd (Demo.run_train Demo.cfg)) =
      trace Demo.world ++ EvPrintDevice :: evs ++ closing_events Demo.cfg /\
    length (List.filter (fun ev : @Event float32 => negb (is_eval_event ev)) evs) = 63%nat.
Proof.
  assert (H : fst (Demo.run_train Demo.cfg) = Ok tt) by (vm_compute; reflexivity).
  split; [exact H|].
  destruct (train_training_events Demo.forward Demo.init_params Demo.init_opt_state
              Demo.adam_update Demo.rmse_value Demo.r2_value Demo.cfg Demo.data
              Demo.world H) as (evs & Htr & Hev).
  exists evs. split; [exact Htr|]. rewrite Hev. reflexivity.
Defined.

(** X12 on the seven-epoch run. *)
Lemma train_leaves_eval_mode_witness :
  fst (Demo.run_train Demo.cfg) = Ok tt /\
  training (snd (Demo.run_train Demo.cfg)) = false.
Proof.
  assert (H : fst (Demo.run_train Demo.cfg) = Ok tt) by (vm_compute; reflexivity).
  split; [exact H|].
  exact (proj1 (train_leaves_eval_mode Demo.forward Demo.init_params Demo.init_opt_state
                  Demo.adam_update Demo.rmse_value Demo.r2_value Demo.cfg Demo.data
                  Demo.world H)).
Defined.

(** X13 on the seven-epoch run. *)
Lemma train_metrics_lines_witness :
  fst (Demo.run_train Demo.cfg) = Ok tt /\
  exists evs : list (@Event float32),
    trace (snd (Demo.run_train Demo.cfg)) =
      trace Demo.world ++ EvPrintDevice :: evs ++ closing_events Demo.cfg /\
    head (logged_epochs evs) = Some 0 /\
    last (logged_epochs evs) = Some 6.
Proof.
  assert (H : fst (Demo.run_train Demo.cfg) = Ok tt) by (vm_compute; reflexivity).
  split; [exact H|].
  destruct (train_metrics_lines Demo.forward Demo.init_params Demo.init_opt_state
              Demo.adam_update Demo.rmse_value Demo.r2_value Demo.cfg Demo.data
              Demo.world H) as (evs & Htr & _ & Hh & Hl).
  exists evs. split; [exact Htr|]. split; [exact Hh | exact Hl].
Defined.

(** X14 on the configuration with no epoch. *)
Lemma train_unbound_iff_witness :
  num_epochs Demo.cfg_no_epochs <= 0 /\
  fst (Demo.run_train Demo.cfg_no_epochs) = Raise UnboundLocalError.
Proof.
  assert (H : num_epochs Demo.cfg_no_epochs <= 0) by (simpl; lia).
  split; [exact H|].
  exact (proj2 (train_unbound_iff Demo.forward Demo.init_params Demo.init_opt_state
                  Demo.adam_update Demo.rmse_value Demo.r2_value Demo.cfg_no_epochs
                  Demo.data Demo.world) H).
Defined.
